(** * SP2-Server: the MySQL data-access wrapper (shared/SpDatabaseWrapper.cpp)

    A shallow embedding of [MysqlValue], [MysqlResult], [QueryException] and
    the operations of [SpDatabaseWrapperImpl], together with a small reference
    model of the database server that answers the statements the wrapper
    issues.  Statements are kept as text, exactly as the C++ code streams
    them; the server model reads the text back.

    Conventions.
    - [int] is a 32-bit two's complement integer, kept as a [Z] in range;
      narrowing casts are written out with [to_int].
    - A [const char*] cell is an [option string]: [None] is the null pointer.
    - C++ exceptions are values of [cpp_exception]; code that can throw
      returns an [outcome]. *)

From Stdlib Require Import ZArith String Ascii List Lia Bool Permutation.
Import ListNotations.

Open Scope string_scope.
Open Scope Z_scope.

(* ================================================================= *)
(** ** Machine integers *)

Module Int.

Definition INT_MAX : Z := 2147483647.
Definition INT_MIN : Z := -2147483648.
Definition modulus : Z := 4294967296.
Definition ULONGLONG_MAX : Z := 18446744073709551615.

Definition in_range (z : Z) : Prop := INT_MIN <= z <= INT_MAX.

(** [(int)x] for an integer [x] of a wider type: reduction modulo 2^32,
    read back as a signed value. *)
Definition to_int (z : Z) : Z := (z + 2147483648) mod modulus - 2147483648.

(** The value [atoi] yields when the text denotes [z]: exact inside the
    range of [int]; outside it the C library of the target saturates. *)
Definition saturate (z : Z) : Z :=
  if z <? INT_MIN then INT_MIN else if INT_MAX <? z then INT_MAX else z.

End Int.

(* ================================================================= *)
(** ** Decimal text *)

Module Decimal.

Definition is_digit (c : ascii) : bool :=
  let n := Z.of_N (N_of_ascii c) in (48 <=? n) && (n <=? 57).

Definition digit_value (c : ascii) : Z := Z.of_N (N_of_ascii c) - 48.

Definition digit_char (d : Z) : ascii := ascii_of_N (Z.to_N (48 + d)).

(** Digits of a non-negative number, most significant first, put in front
    of [acc]. *)
Fixpoint digits_fuel (fuel : nat) (n : Z) (acc : string) : string :=
  match fuel with
  | O => acc
  | S f =>
      let acc' := String (digit_char (n mod 10)) acc in
      if n / 10 =? 0 then acc' else digits_fuel f (n / 10) acc'
  end.

Definition digits (n : Z) : string :=
  digits_fuel (S (Z.to_nat (Z.log2 n))) n EmptyString.

(** What [operator<<] writes for a signed integer. *)
Definition print (z : Z) : string :=
  if z <? 0 then String "-" (digits (- z)) else digits z.

(** Reads the leading run of digits, starting from the value [acc]; gives
    the value and the rest of the text. *)
Fixpoint read_acc (acc : Z) (s : string) : Z * string :=
  match s with
  | String c s' =>
      if is_digit c then read_acc (acc * 10 + digit_value c) s' else (acc, s)
  | EmptyString => (acc, s)
  end.

Definition starts_with_digit (s : string) : bool :=
  match s with String c _ => is_digit c | EmptyString => false end.

(** A signed decimal number at the head of the text, as the server's
    lexer reads it: an optional minus sign and at least one digit. *)
Definition read_int (s : string) : option (Z * string) :=
  match s with
  | String "-" s' =>
      if starts_with_digit s'
      then let (v, rest) := read_acc 0 s' in Some (- v, rest)
      else None
  | _ =>
      if starts_with_digit s then Some (read_acc 0 s) else None
  end.

End Decimal.

(* ================================================================= *)
(** ** C++ exceptions *)

Inductive exception_class : Type :=
| std_exception
| std_logic_error
| std_out_of_range
| std_runtime_error.

(** An exception object: its dynamic type and, for the classes of
    <stdexcept>, the message it was built with. *)
Record cpp_exception : Type := mk_exception {
  dynamic_type : exception_class;
  what_arg : string
}.

Definition logic_error (m : string) := mk_exception std_logic_error m.
Definition out_of_range (m : string) := mk_exception std_out_of_range m.
Definition runtime_error (m : string) := mk_exception std_runtime_error m.

(** The text a plain [std::exception] reports. *)
Definition base_what : string := "std::exception".

(** The virtual [what()]: the classes of <stdexcept> report their message,
    the base class its fixed text. *)
Definition what (e : cpp_exception) : string :=
  match dynamic_type e with
  | std_exception => base_what
  | _ => what_arg e
  end.

(** [catch (exception ex)]: the handler's object is copy-constructed from
    the base-class part of the thrown object, so its dynamic type is
    [std::exception] itself. *)
Definition catch_by_value (thrown : cpp_exception) : cpp_exception :=
  mk_exception std_exception EmptyString.

(** Result of running code that may throw.  [Undefined] stands for
    behaviour the language leaves undefined (indexing past an array). *)
Inductive outcome (A : Type) : Type :=
| Returns (a : A)
| Throws (e : cpp_exception)
| Undefined.
Arguments Returns {A} a.
Arguments Throws {A} e.
Arguments Undefined {A}.

(* ================================================================= *)
(** ** The C library's [atoi] *)

Definition is_space (c : ascii) : bool :=
  let n := N_of_ascii c in
  ((n =? 32) || ((9 <=? n) && (n <=? 13)))%N%bool.

Fixpoint skip_spaces (s : string) : string :=
  match s with
  | String c s' => if is_space c then skip_spaces s' else s
  | EmptyString => s
  end.

Definition atoi (s : string) : Z :=
  match skip_spaces s with
  | String "-" r => Int.saturate (- fst (Decimal.read_acc 0 r))
  | String "+" r => Int.saturate (fst (Decimal.read_acc 0 r))
  | r => Int.saturate (fst (Decimal.read_acc 0 r))
  end.

(* ================================================================= *)
(** ** MysqlValue *)

Record MysqlValue : Type := mk_MysqlValue { value : option string }.

Module Value.

Definition IsNull (v : MysqlValue) : bool :=
  match value v with None => true | Some _ => false end.

Definition AsString (v : MysqlValue) : outcome string :=
  match value v with
  | None => Throws (logic_error "A null MySQL value cannot be converted to string.")
  | Some s => Returns s
  end.

Definition AsInt (v : MysqlValue) : outcome Z :=
  match value v with
  | None => Throws (logic_error "A null MySQL value cannot be converted to int.")
  | Some s => Returns (atoi s)
  end.

Definition AsBool (v : MysqlValue) : outcome bool :=
  match value v with
  | None => Throws (logic_error "A null MySQL value cannot be converted to bool.")
  | Some _ =>
      match AsInt v with
      | Returns n => Returns (negb (n =? 0))
      | Throws e => Throws e
      | Undefined => Undefined
      end
  end.

End Value.

(* ================================================================= *)
(** ** The client library's result set *)

(** [MYSQL_ROW] is a [char**]: [None] is the null row the library hands out
    once the cursor is past the last row. *)
Definition MYSQL_ROW : Type := option (list (option string)).

Record MYSQL_RES : Type := mk_MYSQL_RES {
  field_names : list string;
  data_rows : list (list (option string));
  data_cursor : nat
}.

Definition mysql_num_rows (r : MYSQL_RES) : Z := Z.of_nat (length (data_rows r)).
Definition mysql_num_fields (r : MYSQL_RES) : Z := Z.of_nat (length (field_names r)).

Definition mysql_fetch_row (r : MYSQL_RES) : MYSQL_ROW * MYSQL_RES :=
  match nth_error (data_rows r) (data_cursor r) with
  | Some row =>
      (Some row, mk_MYSQL_RES (field_names r) (data_rows r) (S (data_cursor r)))
  | None => (None, r)
  end.

(* ================================================================= *)
(** ** MysqlResult *)

Record MysqlResult : Type := mk_MysqlResult {
  res : option MYSQL_RES;
  rowCount : Z;
  columnCount : Z;
  columnNames : list string;
  fetchedRows : list MYSQL_ROW;
  autoGeneratedId : Z
}.

Module Result.

(** The constructor: [insert_id] is what [mysql_insert_id] reports, an
    unsigned 64-bit number. *)
Definition new (insert_id : Z) (r : option MYSQL_RES) : MysqlResult :=
  let autoGeneratedId := Int.to_int insert_id in
  match r with
  | None => mk_MysqlResult None 0 0 [] [] autoGeneratedId
  | Some rs =>
      mk_MysqlResult (Some rs)
        (Int.to_int (mysql_num_rows rs)) (Int.to_int (mysql_num_fields rs))
        [] [] autoGeneratedId
  end.

Definition IsNull (this : MysqlResult) : bool :=
  match res this with None => true | Some _ => false end.

Definition GetRowCount (this : MysqlResult) : outcome Z :=
  match res this with
  | None => Throws (logic_error "Cannot retrieve the row count because the result is null.")
  | Some _ => Returns (rowCount this)
  end.

Definition GetAutoGeneratedId (this : MysqlResult) : Z := autoGeneratedId this.

(** The accessors below fill the caches of the object ([columnNames],
    [fetchedRows], the cursor inside [res]), so they return the object
    along with their outcome; what was cached before a throw stays. *)
Definition M (A : Type) : Type := MysqlResult -> outcome A * MysqlResult.

Definition bind {A B : Type} (m : M A) (k : A -> M B) : M B :=
  fun this =>
    match m this with
    | (Returns a, this') => k a this'
    | (Throws e, this') => (Throws e, this')
    | (Undefined, this') => (Undefined, this')
    end.

(** The loop of [FindColumnIndex] over [mysqlFields[i]], from index [i]. *)
Fixpoint scan_fields (fields : list string) (i : Z) (columnName : string)
    (names : list string) (columnIndex : Z) : list string * Z :=
  match fields with
  | [] => (names, columnIndex)
  | f :: fs =>
      scan_fields fs (i + 1) columnName (names ++ [f])
        (if (columnIndex =? -1) && String.eqb f columnName then i else columnIndex)
  end.

(** [std::find(begin, end, x) - begin]. *)
Fixpoint find_index (names : list string) (x : string) : Z :=
  match names with
  | [] => 0
  | n :: ns => if String.eqb n x then 0 else 1 + find_index ns x
  end.

Definition FindColumnIndex (columnName : string) : M Z :=
  fun this =>
    match res this with
    | None =>
        (Throws (logic_error "Cannot retrieve the name of a column because the result is null."), this)
    | Some rs =>
        if columnCount this =? 0 then
          (Throws (logic_error "Cannot retrieve the name of a column because there are no columns."), this)
        else
          let '(names, columnIndex) :=
            match columnNames this with
            | [] =>
                scan_fields (firstn (Z.to_nat (columnCount this)) (field_names rs))
                  0 columnName [] (-1)
            | _ :: _ =>
                (columnNames this, find_index (columnNames this) columnName)
            end in
          let this' :=
            mk_MysqlResult (res this) (rowCount this) (columnCount this)
              names (fetchedRows this) (autoGeneratedId this) in
          if (columnIndex =? -1) || (columnIndex =? Z.of_nat (length names)) then
            (Throws (logic_error "Column name not found."), this')
          else (Returns columnIndex, this')
    end.

(** [k] calls of [mysql_fetch_row], each row pushed onto [fetched]. *)
Fixpoint fetch_rows (k : nat) (rs : MYSQL_RES) (fetched : list MYSQL_ROW)
    : MYSQL_RES * list MYSQL_ROW :=
  match k with
  | O => (rs, fetched)
  | S k' =>
      let (row, rs') := mysql_fetch_row rs in
      fetch_rows k' rs' (fetched ++ [row])
  end.

(** [GetValue(int rowIndex, int columnIndex)]. *)
Definition GetValue_ii (rowIndex columnIndex : Z) : M MysqlValue :=
  fun this =>
    match res this with
    | None =>
        (Throws (logic_error "Cannot retrieve a value because the result is null."), this)
    | Some rs =>
        if columnCount this =? 0 then
          (Throws (out_of_range "Cannot retrieve a value because there are no columns."), this)
        else if rowCount this =? 0 then
          (Throws (out_of_range "Cannot retrieve a value because there are no rows."), this)
        else if columnIndex <? 0 then
          (Throws (out_of_range "Column index cannot be negative."), this)
        else if rowIndex <? 0 then
          (Throws (out_of_range "Row index cannot be negative."), this)
        else if columnIndex >? columnCount this - 1 then
          (Throws (out_of_range "Column index is out of range."), this)
        else if rowIndex >? rowCount this - 1 then
          (Throws (out_of_range "Row index is out of range."), this)
        else
          let size := Z.of_nat (length (fetchedRows this)) in
          let (rs', fetched) :=
            if rowIndex >? size - 1
            then fetch_rows (Z.to_nat (rowIndex - size + 1)) rs (fetchedRows this)
            else (rs, fetchedRows this) in
          let this' :=
            mk_MysqlResult (Some rs') (rowCount this) (columnCount this)
              (columnNames this) fetched (autoGeneratedId this) in
          match nth_error fetched (Z.to_nat rowIndex) with
          | Some (Some row) =>
              match nth_error row (Z.to_nat columnIndex) with
              | Some cell => (Returns (mk_MysqlValue cell), this')
              | None => (Undefined, this')
              end
          | _ => (Undefined, this')
          end
    end.

(** [GetValue(int rowIndex, const char* columnName)]. *)
Definition GetValue_is (rowIndex : Z) (columnName : string) : M MysqlValue :=
  bind (FindColumnIndex columnName) (fun columnIndex =>
  GetValue_ii rowIndex columnIndex).

(** [GetValue(int columnIndex)]. *)
Definition GetValue_i (columnIndex : Z) : M MysqlValue :=
  GetValue_ii 0 columnIndex.

(** [GetValue(const char* columnName)]. *)
Definition GetValue_s (columnName : string) : M MysqlValue :=
  bind (FindColumnIndex columnName) (fun columnIndex =>
  GetValue_i columnIndex).

(** [GetValue()]: the literal [0] is an [int], so the call goes to
    [GetValue(int columnIndex)]. *)
Definition GetValue : M MysqlValue := GetValue_i 0.

End Result.

(** [s.c_str()] read back as a C string: the text before the first NUL. *)
Fixpoint c_str (s : string) : string :=
  match s with
  | String c s' => if Ascii.eqb c zero then EmptyString else String c (c_str s')
  | EmptyString => EmptyString
  end.

(* ================================================================= *)
(** ** QueryException *)

Record QueryException : Type := mk_QueryException {
  query : string;
  description : string
}.

Module QueryException.

(** [Init(cause)]: [None] is the null pointer the one-argument
    constructors pass. *)
Definition Init (query : string) (cause : option string) : string :=
  ((match cause with
    | None => "An error occurred when processing a query."
    | Some c => "An error occurred when processing a query: " ++ c
    end) ++ " The query string was: " ++ query)%string.

Definition new (query : string) (cause : option string) : QueryException :=
  mk_QueryException query (Init query cause).

(** [what()] hands out [description.c_str()]. *)
Definition what (e : QueryException) : string := c_str (description e).
Definition GetQuery (e : QueryException) : string := query e.

End QueryException.

(* ================================================================= *)
(** ** Reference model of the database server

    The server is not part of the repository.  This module fixes what the
    embedding takes it to do with the statements of the wrapper: the tables
    of database [sp], a reader for the statement texts the wrapper can
    produce, and their evaluation.  Text that is none of these statements is
    answered with a syntax error.  Uniqueness and foreign keys are not
    enforced, and string comparison is exact. *)

Module Server.

(** *** Tables *)

Record user_row : Type := mk_user {
  u_id : Z;
  u_name : string;
  u_password : string;
  u_is_male : Z;
  u_is_deleted : Z;
  u_creation_ip : option string;
  u_last_login_date : option Z;
  u_last_loginserver_online_date : option Z;
  u_last_gameserver_online_date : option Z;
  u_auth : Z;
  u_default_character : Z;
  u_rank : Z;
  u_rank_record : Z;
  u_points : Z;
  u_code : Z
}.

(** A row of [userban] (subject: the user id) or of [ipban] (subject: the
    address).  [b_expiration_date] is the TIMESTAMP column, held as the
    number [UNIX_TIMESTAMP] gives for it; [None] is SQL NULL. *)
Record ban_row (K : Type) : Type := mk_ban {
  b_id : Z;
  b_subject : K;
  b_expiration_date : option Z
}.
Arguments mk_ban {K} _ _ _.
Arguments b_id {K} _.
Arguments b_subject {K} _.
Arguments b_expiration_date {K} _.

Record userip_row : Type := mk_userip {
  ui_user_id : Z;
  ui_ip : string;
  ui_last_show_up_date : Z
}.

Record Database : Type := mk_Database {
  user : list user_row;
  userban : list (ban_row Z);
  ipban : list (ban_row string);
  userip : list userip_row;
  (** next AUTO_INCREMENT value of each table with one *)
  user_auto_increment : Z;
  userban_auto_increment : Z;
  ipban_auto_increment : Z;
  (** column defaults of [user], as a row whose key fields are ignored *)
  user_defaults : user_row;
  (** the value of NOW(), as epoch seconds *)
  now : Z
}.

(** [FROM_UNIXTIME(e)] as a TIMESTAMP: NULL outside the type's range. *)
Definition FROM_UNIXTIME (e : Z) : option Z :=
  if (0 <=? e) && (e <=? 2147483647) then Some e else None.

(** *** Statements *)

Inductive sql_value : Type :=
| VInt (z : Z)
| VStr (s : string).

Inductive statement : Type :=
| InsertUser (name password : string) (is_male : Z) (creation_ip : option string)
| SelectUser (columns : list string) (where_column : string) (v : sql_value)
| SelectBanUnion (table1 column1 : string) (v1 : sql_value)
                 (table2 column2 : string) (v2 : sql_value)
| InsertBan (table column : string) (v : sql_value) (from_unixtime : option Z)
| UpsertUserIp (user_id : Z) (ip : string)
| UpdateUserNow (column where_column : string) (v : sql_value).

(** What the client library learns from the server for one statement. *)
Inductive response : Type :=
| QueryFailed (error : string)
| StoreFailed (error : string)
| Answer (result : option MYSQL_RES) (insert_id : Z).

(** *** Reading statement text *)

(** Strips the prefix [p]. *)
Fixpoint eat (p s : string) : option string :=
  match p with
  | EmptyString => Some s
  | String a p' =>
      match s with
      | String b s' => if Ascii.eqb a b then eat p' s' else None
      | EmptyString => None
      end
  end.

(** The body of a quoted string, after its opening quote: up to the next
    quote.  Backslash escapes are outside the fragment read here. *)
Fixpoint read_lit (s : string) : option (string * string) :=
  match s with
  | EmptyString => None
  | String c s' =>
      if Ascii.eqb c "'" then Some (EmptyString, s')
      else if Ascii.eqb c "\" then None
      else match read_lit s' with
           | Some (l, rest) => Some (String c l, rest)
           | None => None
           end
  end.

Definition is_ident_char (c : ascii) : bool :=
  let n := N_of_ascii c in
  (((97 <=? n) && (n <=? 122)) || ((65 <=? n) && (n <=? 90)) ||
   ((48 <=? n) && (n <=? 57)) || (n =? 95))%N%bool.

Fixpoint read_ident (s : string) : string * string :=
  match s with
  | String c s' =>
      if is_ident_char c
      then let (i, rest) := read_ident s' in (String c i, rest)
      else (EmptyString, s)
  | EmptyString => (EmptyString, s)
  end.

Definition read_value (s : string) : option (sql_value * string) :=
  match s with
  | String "'" s' =>
      match read_lit s' with
      | Some (l, rest) => Some (VStr l, rest)
      | None => None
      end
  | _ =>
      match Decimal.read_int s with
      | Some (z, rest) => Some (VInt z, rest)
      | None => None
      end
  end.

(** [column = value] *)
Definition read_cond (s : string) : option (string * sql_value * string) :=
  let (c, r) := read_ident s in
  match c with
  | EmptyString => None
  | _ =>
      match eat " = " r with
      | Some r1 =>
          match read_value r1 with
          | Some (v, rest) => Some (c, v, rest)
          | None => None
          end
      | None => None
      end
  end.

Definition at_end {A : Type} (a : A) (rest : string) : option A :=
  match rest with EmptyString => Some a | _ => None end.

Definition orelse {A : Type} (x y : option A) : option A :=
  match x with Some _ => x | None => y end.

Definition read_insert_user (s : string) : option statement :=
  match eat "INSERT INTO user SET name = '" s with
  | None => None
  | Some s1 =>
  match read_lit s1 with
  | None => None
  | Some (name, s2) =>
  match eat ",password = '" s2 with
  | None => None
  | Some s3 =>
  match read_lit s3 with
  | None => None
  | Some (password, s4) =>
  match eat ",is_male = " s4 with
  | None => None
  | Some s5 =>
  match Decimal.read_int s5 with
  | None => None
  | Some (is_male, s6) =>
  match s6 with
  | EmptyString => Some (InsertUser name password is_male None)
  | _ =>
      match eat ", creation_ip = '" s6 with
      | None => None
      | Some s7 =>
          match read_lit s7 with
          | Some (ip, rest) => at_end (InsertUser name password is_male (Some ip)) rest
          | None => None
          end
      end
  end end end end end end end.

(** The three select lists the wrapper uses on [user]. *)
Definition select_lists : list (string * list string) :=
  [ ("SELECT id FROM user WHERE ", ["id"]);
    ("SELECT password, is_deleted FROM user WHERE ", ["password"; "is_deleted"]);
    ("SELECT is_male, auth, default_character, rank, rank_record, points, code FROM user WHERE ",
     ["is_male"; "auth"; "default_character"; "rank"; "rank_record"; "points"; "code"]) ].

Definition read_select_user_with (head : string * list string) (s : string)
    : option statement :=
  match eat (fst head) s with
  | None => None
  | Some s1 =>
      match read_cond s1 with
      | Some (c, v, rest) => at_end (SelectUser (snd head) c v) rest
      | None => None
      end
  end.

Definition read_select_user (s : string) : option statement :=
  fold_right (fun head alt => orelse (read_select_user_with head s) alt)
    None select_lists.

Definition read_select_ban (s : string) : option statement :=
  match eat "(SELECT NULL as expiration_date_unix FROM " s with
  | None => None
  | Some s1 =>
  let (table1, s2) := read_ident s1 in
  match eat " WHERE " s2 with
  | None => None
  | Some s3 =>
  match read_cond s3 with
  | None => None
  | Some (column1, v1, s4) =>
  match eat " AND expiration_date IS NULL) UNION (SELECT UNIX_TIMESTAMP(expiration_date) AS expiration_date_unix FROM " s4 with
  | None => None
  | Some s5 =>
  let (table2, s6) := read_ident s5 in
  match eat " WHERE " s6 with
  | None => None
  | Some s7 =>
  match read_cond s7 with
  | None => None
  | Some (column2, v2, s8) =>
  match eat " AND expiration_date IS NOT NULL ORDER BY expiration_date_unix DESC) LIMIT 1" s8 with
  | None => None
  | Some rest =>
      at_end (SelectBanUnion table1 column1 v1 table2 column2 v2) rest
  end end end end end end end.

Definition read_insert_ban (s : string) : option statement :=
  match eat "INSERT INTO " s with
  | None => None
  | Some s1 =>
  let (table, s2) := read_ident s1 in
  match eat " SET " s2 with
  | None => None
  | Some s3 =>
  match read_cond s3 with
  | None => None
  | Some (column, v, s4) =>
  match s4 with
  | EmptyString => Some (InsertBan table column v None)
  | _ =>
      match eat ", expiration_date = FROM_UNIXTIME(" s4 with
      | None => None
      | Some s5 =>
          match Decimal.read_int s5 with
          | Some (e, s6) =>
              match eat ")" s6 with
              | Some rest => at_end (InsertBan table column v (Some e)) rest
              | None => None
              end
          | None => None
          end
      end
  end end end end.

Definition read_upsert_userip (s : string) : option statement :=
  match eat "INSERT INTO userip SET user_id = " s with
  | None => None
  | Some s1 =>
  match Decimal.read_int s1 with
  | None => None
  | Some (user_id, s2) =>
  match eat ",ip = '" s2 with
  | None => None
  | Some s3 =>
  match read_lit s3 with
  | None => None
  | Some (ip, s4) =>
  match eat " ON DUPLICATE KEY UPDATE last_show_up_date = NOW()" s4 with
  | Some rest => at_end (UpsertUserIp user_id ip) rest
  | None => None
  end end end end end.

Definition read_update_user (s : string) : option statement :=
  match eat "UPDATE user SET " s with
  | None => None
  | Some s1 =>
  let (column, s2) := read_ident s1 in
  match eat " = NOW() WHERE " s2 with
  | None => None
  | Some s3 =>
      match read_cond s3 with
      | Some (c, v, rest) => at_end (UpdateUserNow column c v) rest
      | None => None
      end
  end end.

Definition read_statement (s : string) : option statement :=
  orelse (read_insert_user s)
 (orelse (read_select_user s)
 (orelse (read_select_ban s)
 (orelse (read_upsert_userip s)
 (orelse (read_insert_ban s)
         (read_update_user s))))).

(** *** Evaluation *)

(** Columns of [user] that the statements read or compare; the cell is
    [None] for SQL NULL.  The three date columns are only ever written. *)
Definition user_column (c : string) : option (user_row -> option sql_value) :=
  if String.eqb c "id" then Some (fun r => Some (VInt (u_id r)))
  else if String.eqb c "name" then Some (fun r => Some (VStr (u_name r)))
  else if String.eqb c "password" then Some (fun r => Some (VStr (u_password r)))
  else if String.eqb c "is_male" then Some (fun r => Some (VInt (u_is_male r)))
  else if String.eqb c "is_deleted" then Some (fun r => Some (VInt (u_is_deleted r)))
  else if String.eqb c "creation_ip" then
    Some (fun r => match u_creation_ip r with Some s => Some (VStr s) | None => None end)
  else if String.eqb c "auth" then Some (fun r => Some (VInt (u_auth r)))
  else if String.eqb c "default_character" then
    Some (fun r => Some (VInt (u_default_character r)))
  else if String.eqb c "rank" then Some (fun r => Some (VInt (u_rank r)))
  else if String.eqb c "rank_record" then Some (fun r => Some (VInt (u_rank_record r)))
  else if String.eqb c "points" then Some (fun r => Some (VInt (u_points r)))
  else if String.eqb c "code" then Some (fun r => Some (VInt (u_code r)))
  else None.

(** The text the client receives for a cell. *)
Definition cell_text (v : option sql_value) : option string :=
  match v with
  | None => None
  | Some (VInt z) => Some (Decimal.print z)
  | Some (VStr s) => Some s
  end.

(** [cell = v] in a WHERE clause.  NULL equals nothing; a comparison
    across types, which the wrapper never sends, is taken to fail. *)
Definition matches (cell : option sql_value) (v : sql_value) : bool :=
  match cell, v with
  | Some (VInt a), VInt b => a =? b
  | Some (VStr a), VStr b => String.eqb a b
  | _, _ => false
  end.

Definition unknown_column (c : string) : string :=
  ("Unknown column '" ++ c ++ "' in 'where clause'")%string.

Definition syntax_error : string := "You have an error in your SQL syntax".

(** All columns of a select list on one row; [None] if a column is unknown. *)
Fixpoint project (columns : list string) (r : user_row) : option (list (option string)) :=
  match columns with
  | [] => Some []
  | c :: cs =>
      match user_column c, project cs r with
      | Some get, Some cells => Some (cell_text (get r) :: cells)
      | _, _ => None
      end
  end.

Fixpoint project_all (columns : list string) (rows : list user_row)
    : option (list (list (option string))) :=
  match rows with
  | [] => Some []
  | r :: rs =>
      match project columns r, project_all columns rs with
      | Some cells, Some more => Some (cells :: more)
      | _, _ => None
      end
  end.

Definition select_user (db : Database) (columns : list string)
    (where_column : string) (v : sql_value) : response :=
  match user_column where_column with
  | None => QueryFailed (unknown_column where_column)
  | Some get =>
      match project_all columns (filter (fun r => matches (get r) v) (user db)) with
      | Some rows => Answer (Some (mk_MYSQL_RES columns rows 0)) 0
      | None => QueryFailed "Unknown column in 'field list'"
      end
  end.

Definition ban_column {K : Type} (subject_column : string) (inj : K -> sql_value)
    (c : string) : option (ban_row K -> option sql_value) :=
  if String.eqb c "id" then Some (fun r => Some (VInt (b_id r)))
  else if String.eqb c subject_column then Some (fun r => Some (inj (b_subject r)))
  else None.

(** Expiration dates of the rows of a ban table that satisfy [c = v], in
    table order. *)
Definition ban_dates {K : Type} (subject_column : string) (inj : K -> sql_value)
    (rows : list (ban_row K)) (c : string) (v : sql_value)
    : string + list (option Z) :=
  match ban_column subject_column inj c with
  | None => inl (unknown_column c)
  | Some get =>
      inr (map b_expiration_date (filter (fun r => matches (get r) v) rows))
  end.

Definition table_dates (db : Database) (table c : string) (v : sql_value)
    : string + list (option Z) :=
  if String.eqb table "userban" then ban_dates "user_id" VInt (userban db) c v
  else if String.eqb table "ipban" then ban_dates "ip" VStr (ipban db) c v
  else if String.eqb table "user" || String.eqb table "userip" then
    inl (unknown_column "expiration_date")
  else inl ("Table 'sp." ++ table ++ "' doesn't exist")%string.

Definition cell_eq_dec (x y : option string) : {x = y} + {x <> y}.
Proof. decide equality. apply string_dec. Defined.

Definition row_eq_dec : forall x y : list (option string), {x = y} + {x <> y} :=
  list_eq_dec cell_eq_dec.

(** UNION: rows in order of arrival, later duplicates dropped. *)
Fixpoint distinct_from (seen rows : list (list (option string)))
    : list (list (option string)) :=
  match rows with
  | [] => []
  | r :: rs =>
      if in_dec row_eq_dec r seen then distinct_from seen rs
      else r :: distinct_from (r :: seen) rs
  end.

Definition union (a b : list (list (option string))) : list (list (option string)) :=
  distinct_from [] (a ++ b).

(** First branch: one NULL cell per matching row without a date. *)
Definition null_branch (dates : list (option Z)) : list (list (option string)) :=
  map (fun _ => [@None string])
      (filter (fun d => match d with None => true | Some _ => false end) dates).

Fixpoint timed (dates : list (option Z)) : list Z :=
  match dates with
  | [] => []
  | Some e :: ds => e :: timed ds
  | None :: ds => timed ds
  end.

(** Second branch: the dates of the matching rows that have one, in table
    order.  Its ORDER BY has no LIMIT of its own; the server drops such a
    clause inside a parenthesised member of a UNION, so it does not order
    the rows. *)
Definition timed_branch (dates : list (option Z)) : list (list (option string)) :=
  map (fun e => [Some (Decimal.print e)]) (timed dates).

(** The two branches are taken in the order written, and the LIMIT 1 of
    the whole statement keeps the first row of the union. *)
Definition select_ban_union (db : Database)
    (table1 column1 : string) (v1 : sql_value)
    (table2 column2 : string) (v2 : sql_value) : response :=
  match table_dates db table1 column1 v1, table_dates db table2 column2 v2 with
  | inl e, _ => QueryFailed e
  | _, inl e => QueryFailed e
  | inr d1, inr d2 =>
      Answer (Some (mk_MYSQL_RES ["expiration_date_unix"]
                      (firstn 1 (union (null_branch d1) (timed_branch d2))) 0)) 0
  end.

Definition set_user (db : Database) (rows : list user_row) (next : Z) : Database :=
  mk_Database rows (userban db) (ipban db) (userip db)
    next (userban_auto_increment db) (ipban_auto_increment db)
    (user_defaults db) (now db).

Definition insert_user (db : Database) (name password : string) (is_male : Z)
    (creation_ip : option string) : Database * response :=
  let d := user_defaults db in
  let id := user_auto_increment db in
  let row :=
    mk_user id name password is_male (u_is_deleted d)
      (match creation_ip with Some ip => Some ip | None => u_creation_ip d end)
      (u_last_login_date d) (u_last_loginserver_online_date d)
      (u_last_gameserver_online_date d)
      (u_auth d) (u_default_character d) (u_rank d) (u_rank_record d)
      (u_points d) (u_code d) in
  (set_user db (user db ++ [row])%list (id + 1), Answer None id).

(** The date column of a new ban row: NULL when the statement does not
    assign it. *)
Definition ban_date (from_unixtime : option Z) : option Z :=
  match from_unixtime with
  | None => None
  | Some e => FROM_UNIXTIME e
  end.

Definition insert_ban (db : Database) (table column : string) (v : sql_value)
    (from_unixtime : option Z) : Database * response :=
  if String.eqb table "userban" then
    match String.eqb column "user_id", v with
    | true, VInt user_id =>
        let id := userban_auto_increment db in
        (mk_Database (user db)
           (userban db ++ [mk_ban id user_id (ban_date from_unixtime)])%list
           (ipban db) (userip db)
           (user_auto_increment db) (id + 1) (ipban_auto_increment db)
           (user_defaults db) (now db),
         Answer None id)
    | _, _ => (db, QueryFailed syntax_error)
    end
  else if String.eqb table "ipban" then
    match String.eqb column "ip", v with
    | true, VStr ip =>
        let id := ipban_auto_increment db in
        (mk_Database (user db) (userban db)
           (ipban db ++ [mk_ban id ip (ban_date from_unixtime)])%list
           (userip db)
           (user_auto_increment db) (userban_auto_increment db) (id + 1)
           (user_defaults db) (now db),
         Answer None id)
    | _, _ => (db, QueryFailed syntax_error)
    end
  else (db, QueryFailed syntax_error).

Definition same_pair (user_id : Z) (ip : string) (r : userip_row) : bool :=
  (ui_user_id r =? user_id) && String.eqb (ui_ip r) ip.

(** INSERT ... ON DUPLICATE KEY UPDATE on the key (user_id, ip); a new row
    gets the current time, the default of its date column. *)
Definition upsert_userip (db : Database) (user_id : Z) (ip : string)
    : Database * response :=
  let rows :=
    if existsb (same_pair user_id ip) (userip db)
    then map (fun r => if same_pair user_id ip r
                       then mk_userip user_id ip (now db) else r) (userip db)
    else (userip db ++ [mk_userip user_id ip (now db)])%list in
  (mk_Database (user db) (userban db) (ipban db) rows
     (user_auto_increment db) (userban_auto_increment db)
     (ipban_auto_increment db) (user_defaults db) (now db),
   Answer None 0).

(** [UPDATE user SET column = NOW()] on one row. *)
Definition touch (column : string) (t : Z) (r : user_row) : option user_row :=
  let mk l1 l2 l3 :=
    mk_user (u_id r) (u_name r) (u_password r) (u_is_male r) (u_is_deleted r)
      (u_creation_ip r) l1 l2 l3 (u_auth r) (u_default_character r) (u_rank r)
      (u_rank_record r) (u_points r) (u_code r) in
  if String.eqb column "last_login_date" then
    Some (mk (Some t) (u_last_loginserver_online_date r)
             (u_last_gameserver_online_date r))
  else if String.eqb column "last_loginserver_online_date" then
    Some (mk (u_last_login_date r) (Some t) (u_last_gameserver_online_date r))
  else if String.eqb column "last_gameserver_online_date" then
    Some (mk (u_last_login_date r) (u_last_loginserver_online_date r) (Some t))
  else None.

Definition update_user_now (db : Database) (column where_column : string)
    (v : sql_value) : Database * response :=
  match user_column where_column, touch column (now db) (user_defaults db) with
  | None, _ => (db, QueryFailed (unknown_column where_column))
  | _, None => (db, QueryFailed syntax_error)
  | Some get, Some _ =>
      (set_user db
         (map (fun r => if matches (get r) v
                        then match touch column (now db) r with
                             | Some r' => r' | None => r end
                        else r) (user db))
         (user_auto_increment db),
       Answer None 0)
  end.

Definition run (db : Database) (st : statement) : Database * response :=
  match st with
  | InsertUser name password is_male creation_ip =>
      insert_user db name password is_male creation_ip
  | SelectUser columns where_column v =>
      (db, select_user db columns where_column v)
  | SelectBanUnion t1 c1 v1 t2 c2 v2 =>
      (db, select_ban_union db t1 c1 v1 t2 c2 v2)
  | InsertBan table column v e => insert_ban db table column v e
  | UpsertUserIp user_id ip => upsert_userip db user_id ip
  | UpdateUserNow column where_column v => update_user_now db column where_column v
  end.

Definition execute (db : Database) (q : string) : Database * response :=
  match read_statement q with
  | Some st => run db st
  | None => (db, QueryFailed syntax_error)
  end.

End Server.

(* ================================================================= *)
(** ** The client library's session *)

(** The session handle: the server it talks to and what the server said
    to the last statement. *)
Record MYSQL : Type := mk_MYSQL {
  server : Server.Database;
  last : Server.response
}.

Definition mysql_query (mysql : MYSQL) (q : string) : Z * MYSQL :=
  let (db, r) := Server.execute (server mysql) q in
  (match r with Server.QueryFailed _ => 1 | _ => 0 end, mk_MYSQL db r).

Definition mysql_store_result (mysql : MYSQL) : option MYSQL_RES :=
  match last mysql with
  | Server.Answer r _ => r
  | _ => None
  end.

Definition mysql_errno (mysql : MYSQL) : Z :=
  match last mysql with
  | Server.Answer _ _ => 0
  | _ => 1
  end.

Definition mysql_error (mysql : MYSQL) : string :=
  match last mysql with
  | Server.QueryFailed e => e
  | Server.StoreFailed e => e
  | Server.Answer _ _ => EmptyString
  end.

Definition mysql_insert_id (mysql : MYSQL) : Z :=
  match last mysql with
  | Server.Answer _ id => id
  | _ => 0
  end.

(* ================================================================= *)
(** ** Domain records (declared in SpDatabaseWrapper.h) *)

Record UserLoginInfo : Type := mk_UserLoginInfo {
  password_hash : string;
  is_deleted : bool;
  login_ban_expiration : Z
}.

Record IpBanInfo : Type := mk_IpBanInfo { ban_expiration : Z }.

Record UserPostLoginInfo : Type := mk_UserPostLoginInfo {
  is_male : bool;
  auth : Z;
  default_character : Z;
  rank : Z;
  rank_record : Z;
  points : Z;
  code : Z
}.

(* ================================================================= *)
(** ** SpDatabaseWrapperImpl *)

(** What an operation of the wrapper does: return, or throw a
    [QueryException]. *)
Inductive result (A : Type) : Type :=
| Ok (a : A)
| Failed (e : QueryException)
| Undefined_behaviour.
Arguments Ok {A} a.
Arguments Failed {A} e.
Arguments Undefined_behaviour {A}.

Module Wrapper.

Definition obind {A B : Type} (x : outcome A) (k : A -> outcome B) : outcome B :=
  match x with
  | Returns a => k a
  | Throws e => Throws e
  | Undefined => Undefined
  end.

Notation "x <- m ;; k" := (obind m (fun x => k))
  (at level 61, m at next level, right associativity).
Notation "' pat <- m ;; k" := (obind m (fun x => match x with pat => k end))
  (at level 61, pat pattern, m at next level, right associativity).

(** Runs an accessor of [MysqlResult] and passes on the updated object. *)
Definition on {A : Type} (this : MysqlResult) (m : Result.M A)
    : outcome (A * MysqlResult) :=
  match m this with
  | (Returns a, this') => Returns (a, this')
  | (Throws e, _) => Throws e
  | (Undefined, _) => Undefined
  end.

Definition GetLastMysqlError (mysql : MYSQL) : string := mysql_error mysql.

(** [ExecuteQueryUnsafe(const string&)].  The [queryLock] calls are left
    out: the embedding runs one operation at a time. *)
Definition ExecuteQueryUnsafe (mysql : MYSQL) (queryString : string)
    : MYSQL * outcome MysqlResult :=
  let (rc, mysql1) := mysql_query mysql (c_str queryString) in
  if negb (rc =? 0) then
    (mysql1, Throws (runtime_error
       ("An error occurred when storing a result from a MySQL query: "
        ++ GetLastMysqlError mysql1)))
  else
    let r := mysql_store_result mysql1 in
    if negb (mysql_errno mysql1 =? 0) then
      (mysql1, Throws (runtime_error
         ("An error occurred when storing a result from a MySQL query: "
          ++ GetLastMysqlError mysql1)))
    else (mysql1, Returns (Result.new (mysql_insert_id mysql1) r)).

(** [ExecuteQuery(const string&)] *)
Definition ExecuteQuery_string (mysql : MYSQL) (queryString : string)
    : MYSQL * outcome MysqlResult :=
  ExecuteQueryUnsafe mysql queryString.

(** [ExecuteQuery(const stringstream&)]: goes through [str().c_str()]. *)
Definition ExecuteQuery (mysql : MYSQL) (queryString : string)
    : MYSQL * outcome MysqlResult :=
  ExecuteQuery_string mysql (c_str queryString).

(** [try { body } catch (exception ex) { throw QueryException(query, ex.what()); }] *)
Definition try_catch {A : Type} (query : string) (body : outcome A) : result A :=
  match body with
  | Returns a => Ok a
  | Throws thrown =>
      let ex := catch_by_value thrown in
      Failed (QueryException.new query (Some (what ex)))
  | Undefined => Undefined_behaviour
  end.

Definition empty (s : string) : bool :=
  match s with EmptyString => true | _ => false end.

Definition CreateUser_query (name password : string) (isMale : bool)
    (creationIp : string) : string :=
  ("INSERT INTO user SET name = '" ++ name ++ "',password = '" ++ password
   ++ "',is_male = " ++ Decimal.print (if isMale then 1 else 0)
   ++ (if empty creationIp
       then ", creation_ip = '" ++ creationIp ++ "'"
       else EmptyString))%string.

Definition CreateUser (mysql : MYSQL) (name password : string) (isMale : bool)
    (creationIp : string) : MYSQL * result Z :=
  let query := CreateUser_query name password isMale creationIp in
  let (mysql', r) := ExecuteQuery mysql query in
  (mysql', try_catch query (
     res <- r ;;
     Returns (Result.GetAutoGeneratedId res))).

Definition GetUserId_query (userName : string) : string :=
  ("SELECT id FROM user WHERE name = '" ++ userName ++ "'")%string.

Definition GetUserId (mysql : MYSQL) (userName : string) : MYSQL * result Z :=
  let query := GetUserId_query userName in
  let (mysql', r) := ExecuteQuery mysql query in
  (mysql', try_catch query (
     res <- r ;;
     n <- Result.GetRowCount res ;;
     if n >? 0 then
       '(v, _) <- on res Result.GetValue ;;
       Value.AsInt v
     else Returns 0)).

Definition GetUserLoginInfo_query1 (userId : Z) : string :=
  ("SELECT password, is_deleted FROM user WHERE id = " ++ Decimal.print userId)%string.

Definition GetUserLoginInfo_query2 (userId : Z) : string :=
  ("(SELECT NULL as expiration_date_unix FROM userban WHERE user_id = "
   ++ Decimal.print userId ++
   " AND expiration_date IS NULL) UNION (SELECT UNIX_TIMESTAMP(expiration_date) AS expiration_date_unix FROM userban WHERE user_id = "
   ++ Decimal.print userId ++
   " AND expiration_date IS NOT NULL ORDER BY expiration_date_unix DESC) LIMIT 1")%string.

(** The body of the try block that reads the ban expiration; the same
    text in [GetUserLoginInfo] and [GetIpBanInfo]. *)
Definition read_ban_expiration (r : outcome MysqlResult) : outcome Z :=
  res <- r ;;
  n <- Result.GetRowCount res ;;
  if n =? 0 then Returns 0
  else
    '(v, _) <- on res Result.GetValue ;;
    if Value.IsNull v then Returns (-1) else Value.AsInt v.

(** First block of [GetUserLoginInfo]: password and isDeleted. *)
Definition GetUserLoginInfo_block1 (mysql : MYSQL) (userId : Z)
    : MYSQL * result (string * bool) :=
  let query := GetUserLoginInfo_query1 userId in
  let (mysql', r) := ExecuteQuery mysql query in
  (mysql', try_catch query (
     res <- r ;;
     '(v1, res1) <- on res (Result.GetValue_s "user") ;;
     password <- Value.AsString v1 ;;
     '(v2, _) <- on res1 (Result.GetValue_s "is_deleted") ;;
     isDeleted <- Value.AsBool v2 ;;
     Returns (password, isDeleted))).

(** Second block of [GetUserLoginInfo]: banExpirationDate. *)
Definition GetUserLoginInfo_block2 (mysql : MYSQL) (userId : Z)
    : MYSQL * result Z :=
  let query := GetUserLoginInfo_query2 userId in
  let (mysql', r) := ExecuteQuery mysql query in
  (mysql', try_catch query (read_ban_expiration r)).

Definition GetUserLoginInfo (mysql : MYSQL) (userId : Z)
    : MYSQL * result UserLoginInfo :=
  match GetUserLoginInfo_block1 mysql userId with
  | (mysql1, Failed e) => (mysql1, Failed e)
  | (mysql1, Undefined_behaviour) => (mysql1, Undefined_behaviour)
  | (mysql1, Ok (password, isDeleted)) =>
      match GetUserLoginInfo_block2 mysql1 userId with
      | (mysql2, Failed e) => (mysql2, Failed e)
      | (mysql2, Undefined_behaviour) => (mysql2, Undefined_behaviour)
      | (mysql2, Ok banExpirationDate) =>
          (mysql2, Ok (mk_UserLoginInfo (c_str password) isDeleted banExpirationDate))
      end
  end.

Definition GetIpBanInfo_query (ip : string) : string :=
  ("(SELECT NULL as expiration_date_unix FROM ipban WHERE ip = '"
   ++ ip ++
   "' AND expiration_date IS NULL) UNION (SELECT UNIX_TIMESTAMP(expiration_date) AS expiration_date_unix FROM ipban WHERE ip = '"
   ++ ip ++
   "' AND expiration_date IS NOT NULL ORDER BY expiration_date_unix DESC) LIMIT 1")%string.

Definition GetIpBanInfo (mysql : MYSQL) (ip : string) : MYSQL * result IpBanInfo :=
  let query := GetIpBanInfo_query ip in
  let (mysql', r) := ExecuteQuery mysql query in
  (mysql', match try_catch query (read_ban_expiration r) with
           | Ok banExpirationDate => Ok (mk_IpBanInfo banExpirationDate)
           | Failed e => Failed e
           | Undefined_behaviour => Undefined_behaviour
           end).

(** The optional assignment of the date column, the same text in
    [CreateUserBan] and [CreateIpBan]. *)
Definition expiration_clause (banExpirationDate : Z) : string :=
  if negb (banExpirationDate =? -1)
  then (", expiration_date = FROM_UNIXTIME(" ++ Decimal.print banExpirationDate ++ ")")%string
  else EmptyString.

Definition CreateUserBan_query (userId banExpirationDate : Z) : string :=
  ("INSERT INTO userban SET user_id = " ++ Decimal.print userId
   ++ expiration_clause banExpirationDate)%string.

Definition CreateUserBan (mysql : MYSQL) (userId banExpirationDate : Z)
    : MYSQL * result Z :=
  let query := CreateUserBan_query userId banExpirationDate in
  let (mysql', r) := ExecuteQuery mysql query in
  (mysql', try_catch query (
     res <- r ;;
     Returns (Result.GetAutoGeneratedId res))).

Definition CreateIpBan_query (ip : string) (banExpirationDate : Z) : string :=
  ("INSERT INTO ipban SET ip = '" ++ ip ++ "'"
   ++ expiration_clause banExpirationDate)%string.

Definition CreateIpBan (mysql : MYSQL) (ip : string) (banExpirationDate : Z)
    : MYSQL * result Z :=
  let query := CreateIpBan_query ip banExpirationDate in
  let (mysql', r) := ExecuteQuery mysql query in
  (mysql', try_catch query (
     res <- r ;;
     Returns (Result.GetAutoGeneratedId res))).

(** The body shared by the four operations that only run a statement. *)
Definition run_only (mysql : MYSQL) (query : string) : MYSQL * result unit :=
  let (mysql', r) := ExecuteQuery mysql query in
  (mysql', try_catch query (_ <- r ;; Returns tt)).

Definition CreateOrUpdateUserIp (mysql : MYSQL) (userId : Z) (ip : string)
    : MYSQL * result unit :=
  run_only mysql
    ("INSERT INTO userip SET user_id = " ++ Decimal.print userId ++ ",ip = '" ++ ip
     ++ "' ON DUPLICATE KEY UPDATE last_show_up_date = NOW()")%string.

Definition UpdateUserLastLoginDate (mysql : MYSQL) (userId : Z) : MYSQL * result unit :=
  run_only mysql
    ("UPDATE user SET last_login_date = NOW() WHERE id = " ++ Decimal.print userId)%string.

Definition UpdateUserLastLoginServerOnlineDate (mysql : MYSQL) (userId : Z)
    : MYSQL * result unit :=
  run_only mysql
    ("UPDATE user SET last_loginserver_online_date = NOW() WHERE id = "
     ++ Decimal.print userId)%string.

Definition UpdateUserLastGameServerOnlineDate (mysql : MYSQL) (userId : Z)
    : MYSQL * result unit :=
  run_only mysql
    ("UPDATE user SET last_gameserver_online_date = NOW() WHERE id = "
     ++ Decimal.print userId)%string.

Definition GetUserPostLoginInfo_query (userId : Z) : string :=
  ("SELECT is_male, auth, default_character, rank, rank_record, points, code FROM user WHERE user_id = "
   ++ Decimal.print userId)%string.

Definition GetUserPostLoginInfo (mysql : MYSQL) (userId : Z)
    : MYSQL * result UserPostLoginInfo :=
  let query := GetUserPostLoginInfo_query userId in
  let (mysql', r) := ExecuteQuery mysql query in
  (mysql', try_catch query (
     res <- r ;;
     '(v1, res1) <- on res (Result.GetValue_s "is_male") ;;
     isMale <- Value.AsBool v1 ;;
     '(v2, res2) <- on res1 (Result.GetValue_s "auth") ;;
     auth <- Value.AsInt v2 ;;
     '(v3, res3) <- on res2 (Result.GetValue_s "default_character") ;;
     defaultCharacter <- Value.AsInt v3 ;;
     '(v4, res4) <- on res3 (Result.GetValue_s "rank") ;;
     rank <- Value.AsInt v4 ;;
     '(v5, res5) <- on res4 (Result.GetValue_s "rank_record") ;;
     rankRecord <- Value.AsInt v5 ;;
     '(v6, res6) <- on res5 (Result.GetValue_s "points") ;;
     points <- Value.AsInt v6 ;;
     '(v7, _) <- on res6 (Result.GetValue_s "code") ;;
     code <- Value.AsInt v7 ;;
     Returns (mk_UserPostLoginInfo isMale auth defaultCharacter rank rankRecord
                points code))).

End Wrapper.

(* ================================================================= *)
(** ** Vocabulary of the statements proved below *)

(** Text that can stand between quotes in a statement and in a C string
    as it is: no quote, no backslash, no NUL. *)
Definition plain_char (c : ascii) : bool :=
  negb (Ascii.eqb c "'") && negb (Ascii.eqb c "\") && negb (Ascii.eqb c zero).

Fixpoint plain (s : string) : bool :=
  match s with
  | String c s' => plain_char c && plain s'
  | EmptyString => true
  end.

Fixpoint no_nul (s : string) : bool :=
  match s with
  | String c s' => negb (Ascii.eqb c zero) && no_nul s'
  | EmptyString => true
  end.

(** A date a TIMESTAMP column can hold, as [UNIX_TIMESTAMP] reports it. *)
Definition timestamp (d : option Z) : Prop :=
  match d with
  | Some e => 0 <= e <= Int.INT_MAX
  | None => True
  end.

(** What [ExecuteQuery] makes of the server's response. *)
Definition result_of (r : Server.response) : outcome MysqlResult :=
  match r with
  | Server.Answer rs id => Returns (Result.new id rs)
  | Server.QueryFailed e | Server.StoreFailed e =>
      Throws (runtime_error
        ("An error occurred when storing a result from a MySQL query: " ++ e))
  end.

Module Spec.

Definition is_null (d : option Z) : bool :=
  match d with None => true | Some _ => false end.

(** Ban resolution as the specification words it: -1 if some row has no
    date, else the largest date if there is a row, else 0. *)
Definition ban_resolution (dates : list (option Z)) : Z :=
  if existsb is_null dates then -1
  else match Server.timed dates with
       | [] => 0
       | e :: es => fold_right Z.max e es
       end.

End Spec.

(* ================================================================= *)
(** ** Sample databases *)

Module Sample.
Import Server.

Definition defaults : user_row :=
  mk_user 0 EmptyString EmptyString 0 0 None None None None 0 0 0 0 0 0.

Definition alice : user_row :=
  mk_user 1 "alice" "H" 1 0 None None None None 0 0 0 0 0 0.

(** The user of scenario S6. *)
Definition carol : user_row :=
  mk_user 3 "carol" "K" 0 0 None None None None 5 7 2 9 100 42.

Definition empty_db : Database :=
  mk_Database [] [] [] [] 1 1 1 defaults 1000.

(** Two users; user 1 has two timed bans and user 3 a permanent and a
    timed one; one address is banned until 5. *)
Definition db : Database :=
  mk_Database [alice; carol]
    [mk_ban 1 1 (Some 1700000000); mk_ban 2 1 (Some 1800000000);
     mk_ban 3 3 None; mk_ban 4 3 (Some 2000000000)]
    [mk_ban 1 "10.0.0.2" (Some 5)] []
    4 5 2 defaults 1000.

(** A server whose next generated ids are past the range of [int]. *)
Definition big_db : Database :=
  mk_Database [] [] [] [] 3000000000 3000000001 3000000002 defaults 1000.

Definition connect (d : Database) : MYSQL := mk_MYSQL d (Answer None 0).

End Sample.

Module BanRows.
Import Server.

(** The dates of the ban rows that match a subject, in table order. *)
Definition of_user (db : Database) (userId : Z) : list (option Z) :=
  map b_expiration_date (filter (fun r => b_subject r =? userId) (userban db)).

Definition of_ip (db : Database) (ip : string) : list (option Z) :=
  map b_expiration_date (filter (fun r => String.eqb (b_subject r) ip) (ipban db)).

(** What the first row of the ban statement's answer amounts to: -1 if a
    matching row has no date, else the date of the first matching row in
    table order, else 0. *)
Definition first_listed (dates : list (option Z)) : Z :=
  if existsb Spec.is_null dates then -1
  else match timed dates with
       | [] => 0
       | e :: _ => e
       end.

End BanRows.

(* ================================================================= *)
(** ** The caches of MysqlResult *)

Module Cache.

(** A result set as the client library delivers it: every row has one
    cell per field, and both counts fit an [int]. *)
Definition well_formed (rs : MYSQL_RES) : Prop :=
  Forall (fun row => length row = length (field_names rs)) (data_rows rs) /\
  Z.of_nat (length (data_rows rs)) <= Int.INT_MAX /\
  Z.of_nat (length (field_names rs)) <= Int.INT_MAX.

(** The object agrees with the result set [rs] it was built on: the rows
    fetched so far are the first rows of [rs], the cursor stands behind
    them, and the column names are either not yet cached or those of [rs]. *)
Definition consistent (rs : MYSQL_RES) (this : MysqlResult) : Prop :=
  exists k : nat,
    (k <= length (data_rows rs))%nat /\
    res this = Some (mk_MYSQL_RES (field_names rs) (data_rows rs) k) /\
    fetchedRows this = map (@Some (list (option string))) (firstn k (data_rows rs)) /\
    rowCount this = Z.of_nat (length (data_rows rs)) /\
    columnCount this = Z.of_nat (length (field_names rs)) /\
    (columnNames this = [] \/ columnNames this = field_names rs).

(** The cell of row [r], column [c] of the result set. *)
Definition cell_at (rs : MYSQL_RES) (r c : Z) : option (option string) :=
  match nth_error (data_rows rs) (Z.to_nat r) with
  | Some row => nth_error row (Z.to_nat c)
  | None => None
  end.

End Cache.

Module SampleResult.

(** The answer to the first statement of [GetUserLoginInfo] for two rows,
    the second with a NULL cell. *)
Definition rs : MYSQL_RES :=
  mk_MYSQL_RES ["password"; "is_deleted"]
    [[Some "H"; Some "0"]; [Some "K"; None]] 0.

End SampleResult.

(* ================================================================= *)
(** ** Statements of the operations that return nothing *)

Module Statements.

Definition CreateOrUpdateUserIp_query (userId : Z) (ip : string) : string :=
  ("INSERT INTO userip SET user_id = " ++ Decimal.print userId ++ ",ip = '" ++ ip
   ++ "' ON DUPLICATE KEY UPDATE last_show_up_date = NOW()")%string.

Definition UpdateUserLastLoginDate_query (userId : Z) : string :=
  ("UPDATE user SET last_login_date = NOW() WHERE id = " ++ Decimal.print userId)%string.

Definition UpdateUserLastLoginServerOnlineDate_query (userId : Z) : string :=
  ("UPDATE user SET last_loginserver_online_date = NOW() WHERE id = "
   ++ Decimal.print userId)%string.

Definition UpdateUserLastGameServerOnlineDate_query (userId : Z) : string :=
  ("UPDATE user SET last_gameserver_online_date = NOW() WHERE id = "
   ++ Decimal.print userId)%string.

End Statements.

(** Rows of [user] with one of the date columns replaced. *)
Module Touched.
Import Server.

Definition last_login_date (t : Z) (r : user_row) : user_row :=
  mk_user (u_id r) (u_name r) (u_password r) (u_is_male r) (u_is_deleted r)
    (u_creation_ip r) (Some t) (u_last_loginserver_online_date r)
    (u_last_gameserver_online_date r) (u_auth r) (u_default_character r)
    (u_rank r) (u_rank_record r) (u_points r) (u_code r).

Definition last_loginserver_online_date (t : Z) (r : user_row) : user_row :=
  mk_user (u_id r) (u_name r) (u_password r) (u_is_male r) (u_is_deleted r)
    (u_creation_ip r) (u_last_login_date r) (Some t)
    (u_last_gameserver_online_date r) (u_auth r) (u_default_character r)
    (u_rank r) (u_rank_record r) (u_points r) (u_code r).

Definition last_gameserver_online_date (t : Z) (r : user_row) : user_row :=
  mk_user (u_id r) (u_name r) (u_password r) (u_is_male r) (u_is_deleted r)
    (u_creation_ip r) (u_last_login_date r) (u_last_loginserver_online_date r)
    (Some t) (u_auth r) (u_default_character r)
    (u_rank r) (u_rank_record r) (u_points r) (u_code r).

(** The table after [UPDATE user SET column = NOW() WHERE id = userId]. *)
Definition rows (set : Z -> user_row -> user_row) (db : Database) (userId : Z)
    : list user_row :=
  map (fun r => if u_id r =? userId then set (now db) r else r) (user db).

(** A row of [userip] after the update part of the upsert. *)
Definition pair (userId : Z) (ip : string) (t : Z) (r : userip_row) : userip_row :=
  if same_pair userId ip r then mk_userip userId ip t else r.

End Touched.

(* ================================================================= *)
(** ** The query lock *)

Module Locking.
Import Wrapper.

Inductive mutex : Type := Unlocked | Locked.

(** One thread is followed.  [lock()] on the mutex it already holds does
    not return and [unlock()] on a mutex it does not hold is undefined;
    both are [None] here. *)
Definition lock (m : mutex) : option mutex :=
  match m with Unlocked => Some Locked | Locked => None end.

Definition unlock (m : mutex) : option mutex :=
  match m with Locked => Some Unlocked | Unlocked => None end.

(** [ExecuteQueryUnsafe(const string&)] with its calls on [queryLock].
    [send] stands for the client library's [mysql_query], so that every
    answer the library can give is covered, also a failure of
    [mysql_store_result], which the reference server never produces. *)
Definition ExecuteQueryUnsafe (send : MYSQL -> string -> Z * MYSQL) (mysql : MYSQL)
    (queryLock : mutex) (queryString : string)
    : MYSQL * option mutex * outcome MysqlResult :=
  let (rc, mysql1) := send mysql (c_str queryString) in
  if negb (rc =? 0) then
    (mysql1, unlock queryLock,
     Throws (runtime_error
       ("An error occurred when storing a result from a MySQL query: "
        ++ GetLastMysqlError mysql1)))
  else
    let r := mysql_store_result mysql1 in
    if negb (mysql_errno mysql1 =? 0) then
      (mysql1, unlock queryLock,
       Throws (runtime_error
         ("An error occurred when storing a result from a MySQL query: "
          ++ GetLastMysqlError mysql1)))
    else (mysql1, Some queryLock, Returns (Result.new (mysql_insert_id mysql1) r)).

(** [ExecuteQuery(const string&)]: lock, run, unlock; an exception leaves
    before the unlock. *)
Definition ExecuteQuery_string (send : MYSQL -> string -> Z * MYSQL) (mysql : MYSQL)
    (queryLock : mutex) (queryString : string)
    : MYSQL * option mutex * outcome MysqlResult :=
  match lock queryLock with
  | None => (mysql, None, Undefined)
  | Some held =>
      match ExecuteQueryUnsafe send mysql held queryString with
      | (mysql', Some l, Returns r) => (mysql', unlock l, Returns r)
      | other => other
      end
  end.

(** [ExecuteQuery(const stringstream&)] *)
Definition ExecuteQuery (send : MYSQL -> string -> Z * MYSQL) (mysql : MYSQL)
    (queryLock : mutex) (queryString : string)
    : MYSQL * option mutex * outcome MysqlResult :=
  ExecuteQuery_string send mysql queryLock (c_str queryString).

(** A library call whose statement is accepted while fetching its result
    fails. *)
Definition store_fails (mysql : MYSQL) (q : string) : Z * MYSQL :=
  (0, mk_MYSQL (server mysql) (Server.StoreFailed "Lost connection to MySQL server during query")).

(** What [ExecuteQuery] has to come to for the library's answer
    [(rc, mysql1)]. *)
Definition expected (rc : Z) (mysql1 : MYSQL) : outcome MysqlResult :=
  if negb (rc =? 0) || negb (mysql_errno mysql1 =? 0)
  then Throws (runtime_error
         ("An error occurred when storing a result from a MySQL query: "
          ++ mysql_error mysql1))
  else Returns (Result.new (mysql_insert_id mysql1) (mysql_store_result mysql1)).

End Locking.

(* ================================================================= *)
(** * Properties *)

Module IntFacts.
Import Int.

Lemma to_int_range z : in_range (to_int z).
Proof.
  unfold in_range, to_int, INT_MIN, INT_MAX, modulus.
  pose proof (Z.mod_pos_bound (z + 2147483648) 4294967296 ltac:(lia)). lia.
Qed.

Lemma to_int_small z : in_range z -> to_int z = z.
Proof.
  unfold in_range, to_int, INT_MIN, INT_MAX, modulus. intros H.
  rewrite Z.mod_small; lia.
Qed.

Lemma to_int_congr z : exists k, to_int z = z + k * modulus.
Proof.
  exists (- ((z + 2147483648) / 4294967296)).
  unfold to_int, modulus. rewrite Z.mod_eq by lia. lia.
Qed.

Lemma saturate_small z : in_range z -> saturate z = z.
Proof.
  unfold in_range, saturate, INT_MIN, INT_MAX. intros H.
  destruct (Z.ltb_spec z (-2147483648)); [lia|].
  destruct (Z.ltb_spec 2147483647 z); [lia|reflexivity].
Qed.

End IntFacts.

Module DecimalFacts.
Import Decimal.

Lemma digit_char_ok d :
  0 <= d < 10 -> is_digit (digit_char d) = true /\ digit_value (digit_char d) = d.
Proof.
  intros H.
  assert (E : d = 0 \/ d = 1 \/ d = 2 \/ d = 3 \/ d = 4 \/
              d = 5 \/ d = 6 \/ d = 7 \/ d = 8 \/ d = 9) by lia.
  repeat (destruct E as [E | E]; [subst d; split; reflexivity|]).
  subst d; split; reflexivity.
Qed.

Lemma digits_fuel_app f : forall n acc rest,
  (digits_fuel f n acc ++ rest)%string = digits_fuel f n (acc ++ rest).
Proof.
  induction f as [|f IH]; intros n acc rest; simpl; [reflexivity|].
  destruct (n / 10 =? 0); [reflexivity|]. now rewrite IH.
Qed.

Lemma digits_fuel_head f : forall n acc, 0 <= n ->
  starts_with_digit (digits_fuel (S f) n acc) = true.
Proof.
  induction f as [|f IH]; intros n acc Hn.
  - simpl. destruct (n / 10 =? 0); simpl;
      apply digit_char_ok, Z.mod_pos_bound; lia.
  - change (digits_fuel (S (S f)) n acc)
      with (let acc' := String (digit_char (n mod 10)) acc in
            if n / 10 =? 0 then acc' else digits_fuel (S f) (n / 10) acc').
    cbv zeta. destruct (n / 10 =? 0).
    + simpl. apply digit_char_ok, Z.mod_pos_bound; lia.
    + apply IH. apply Z.div_pos; lia.
Qed.

Lemma read_digits_fuel f : forall n rest,
  0 <= n < 2 ^ Z.of_nat f ->
  read_acc 0 (digits_fuel f n rest) = read_acc n rest.
Proof.
  induction f as [|f IH]; intros n rest Hn.
  - simpl in *. replace n with 0 by lia. reflexivity.
  - assert (Hd : 0 <= n mod 10 < 10) by (apply Z.mod_pos_bound; lia).
    destruct (digit_char_ok _ Hd) as [D1 D2].
    assert (Hq : 0 <= n / 10) by (apply Z.div_pos; lia).
    pose proof (Z.div_mod n 10 ltac:(lia)) as Hdm.
    simpl digits_fuel. destruct (Z.eqb_spec (n / 10) 0) as [E|E].
    + simpl. rewrite D1, D2. f_equal. lia.
    + rewrite IH.
      * simpl. rewrite D1, D2. f_equal. lia.
      * rewrite Nat2Z.inj_succ, Z.pow_succ_r in Hn by lia. lia.
Qed.

Lemma fuel_enough n : 0 <= n -> n < 2 ^ Z.of_nat (S (Z.to_nat (Z.log2 n))).
Proof.
  intros Hn. rewrite Nat2Z.inj_succ, Z2Nat.id by apply Z.log2_nonneg.
  destruct (Z.eq_dec n 0) as [->|Hz]; [reflexivity|].
  apply Z.log2_spec. lia.
Qed.

Lemma read_acc_stop n rest :
  starts_with_digit rest = false -> read_acc n rest = (n, rest).
Proof. destruct rest as [|c r]; simpl; [reflexivity|]. now intros ->. Qed.

Lemma read_digits n rest :
  0 <= n -> starts_with_digit rest = false ->
  read_acc 0 (digits n ++ rest) = (n, rest).
Proof.
  intros Hn Hr. unfold digits. rewrite digits_fuel_app. simpl append.
  rewrite read_digits_fuel by (split; [lia | now apply fuel_enough]).
  now apply read_acc_stop.
Qed.

Lemma digits_head n rest :
  0 <= n -> starts_with_digit (digits n ++ rest) = true.
Proof.
  intros Hn. unfold digits. rewrite digits_fuel_app.
  now apply digits_fuel_head.
Qed.

(** The server reads back any number the wrapper prints. *)
Lemma read_int_print z rest :
  starts_with_digit rest = false ->
  read_int (print z ++ rest) = Some (z, rest).
Proof.
  intros Hr. unfold print. destruct (Z.ltb_spec z 0) as [Hz|Hz].
  - simpl. rewrite digits_head by lia. rewrite read_digits by (lia || assumption).
    f_equal. f_equal. lia.
  - unfold read_int.
    pose proof (digits_head z rest Hz) as Hh.
    destruct (digits z ++ rest)%string as [|c r] eqn:E; [discriminate|].
    assert (Hc : c <> "-"%char).
    { intros ->. simpl in Hh. discriminate. }
    rewrite <- E in *.
    assert (G : (if starts_with_digit (digits z ++ rest)
                 then Some (read_acc 0 (digits z ++ rest)) else None)
                = Some (z, rest)).
    { rewrite Hh. now rewrite read_digits. }
    rewrite E in *.
    destruct c as [[] [] [] [] [] [] [] []]; try exact G.
    now elim Hc.
Qed.

End DecimalFacts.

(** ** Text *)

Module TextFacts.
Import Decimal DecimalFacts Server.

Lemma no_nul_app a b : no_nul (a ++ b) = no_nul a && no_nul b.
Proof.
  induction a as [|c a IH]; simpl; [reflexivity|].
  rewrite IH. now rewrite andb_assoc.
Qed.

Lemma plain_no_nul s : plain s = true -> no_nul s = true.
Proof.
  induction s as [|c s IH]; simpl; [reflexivity|].
  unfold plain_char. intros H.
  apply andb_true_iff in H as [H1 H2].
  apply andb_true_iff in H1 as [_ H1].
  rewrite H1. now apply IH.
Qed.

Lemma c_str_id s : no_nul s = true -> c_str s = s.
Proof.
  induction s as [|c s IH]; simpl; [reflexivity|].
  intros H. apply andb_true_iff in H as [H1 H2].
  apply negb_true_iff in H1. rewrite H1. now rewrite IH.
Qed.

Lemma digit_not_nul c : is_digit c = true -> Ascii.eqb c zero = false.
Proof.
  intros H. destruct (Ascii.eqb_spec c zero) as [->|]; [discriminate|reflexivity].
Qed.

Lemma digits_fuel_no_nul f : forall n acc,
  no_nul acc = true -> no_nul (digits_fuel f n acc) = true.
Proof.
  induction f as [|f IH]; intros n acc Ha; simpl; [assumption|].
  assert (Hd : no_nul (String (digit_char (n mod 10)) acc) = true).
  { simpl. rewrite Ha, andb_true_r. apply negb_true_iff, digit_not_nul.
    apply digit_char_ok, Z.mod_pos_bound. lia. }
  destruct (n / 10 =? 0); [assumption|]. now apply IH.
Qed.

Lemma print_no_nul z : no_nul (print z) = true.
Proof.
  unfold print, digits. destruct (z <? 0).
  - cbn [no_nul]. now rewrite digits_fuel_no_nul.
  - now apply digits_fuel_no_nul.
Qed.

Lemma eat_app p s : eat p (p ++ s) = Some s.
Proof.
  induction p as [|c p IH]; simpl; [reflexivity|].
  now rewrite Ascii.eqb_refl.
Qed.

Lemma read_lit_plain l rest :
  plain l = true -> read_lit (l ++ String "'" rest) = Some (l, rest).
Proof.
  induction l as [|c l IH]; simpl; [reflexivity|].
  unfold plain_char. intros H.
  apply andb_true_iff in H as [H1 H2].
  apply andb_true_iff in H1 as [H1 _].
  apply andb_true_iff in H1 as [Hq Hb].
  apply negb_true_iff in Hq, Hb. rewrite Hq, Hb. now rewrite IH.
Qed.

Lemma read_int_print_end z : read_int (print z) = Some (z, EmptyString).
Proof.
  rewrite <- (read_int_print z EmptyString) by reflexivity.
  f_equal. clear. induction (print z) as [|c s IH]; simpl; congruence.
Qed.

(** [atoi] undoes [operator<<] on every [int]. *)
Lemma atoi_print z : Int.in_range z -> atoi (print z) = z.
Proof.
  intros Hz. unfold atoi, print. destruct (Z.ltb_spec z 0) as [Hn|Hn].
  - simpl skip_spaces.
    replace (digits (- z)) with (digits (- z) ++ EmptyString)%string
      by (clear; induction (digits (- z)); simpl; congruence).
    rewrite read_digits by (lia || reflexivity). simpl fst.
    rewrite IntFacts.saturate_small; [lia|].
    unfold Int.in_range in *. lia.
  - pose proof (digits_head z EmptyString Hn) as Hh.
    assert (E : (digits z ++ EmptyString)%string = digits z)
      by (clear; induction (digits z); simpl; congruence).
    rewrite E in Hh.
    pose proof (read_digits z EmptyString Hn eq_refl) as Hr. rewrite E in Hr.
    destruct (digits z) as [|c r] eqn:D; [discriminate|].
    simpl in Hh.
    assert (Hs : is_space c = false).
    { clear - Hh. destruct c as [[] [] [] [] [] [] [] []]; try discriminate; reflexivity. }
    simpl skip_spaces. rewrite Hs.
    assert (G : Int.saturate (fst (read_acc 0 (String c r))) = z).
    { rewrite Hr. simpl. now apply IntFacts.saturate_small. }
    destruct c as [[] [] [] [] [] [] [] []]; try exact G; discriminate.
Qed.

End TextFacts.

(** ** The server reads the wrapper's statements back *)

Module ReadFacts.
Import Decimal DecimalFacts TextFacts Server Wrapper.

Lemma append_empty_r s : (s ++ EmptyString)%string = s.
Proof. induction s; simpl; congruence. Qed.

Lemma read_value_print z rest :
  starts_with_digit rest = false ->
  read_value (print z ++ rest) = Some (VInt z, rest).
Proof.
  intros Hr. pose proof (read_int_print z rest Hr) as H.
  unfold read_value.
  destruct (print z ++ rest)%string as [|c s] eqn:E.
  - now rewrite H.
  - rewrite H.
    destruct (Ascii.eqb_spec c "'") as [->|Hc].
    + discriminate H.
    + destruct c as [[] [] [] [] [] [] [] []]; try reflexivity. now elim Hc.
Qed.

Lemma read_value_print_end z : read_value (print z) = Some (VInt z, EmptyString).
Proof. rewrite <- (append_empty_r (print z)) at 1. now apply read_value_print. Qed.

Lemma read_value_lit l rest :
  plain l = true ->
  read_value (String "'" (l ++ String "'" rest)) = Some (VStr l, rest).
Proof. intros H. simpl. now rewrite read_lit_plain. Qed.

Arguments print : simpl never.
Arguments read_value : simpl never.
Arguments read_int : simpl never.
Arguments read_lit : simpl never.

Ltac read_text :=
  repeat first
    [ progress cbn
    | progress unfold read_cond
    | rewrite read_value_print_end
    | rewrite read_value_print by reflexivity
    | rewrite read_value_lit by assumption
    | rewrite read_int_print_end
    | rewrite read_int_print by reflexivity
    | rewrite read_lit_plain by assumption ].

Lemma read_GetUserLoginInfo_query1 userId :
  read_statement (GetUserLoginInfo_query1 userId)
  = Some (SelectUser ["password"; "is_deleted"] "id" (VInt userId)).
Proof.
  unfold GetUserLoginInfo_query1, read_statement. read_text. reflexivity.
Qed.

Lemma read_GetUserId_query name : plain name = true ->
  read_statement (GetUserId_query name) = Some (SelectUser ["id"] "name" (VStr name)).
Proof.
  intros H. unfold GetUserId_query, read_statement. read_text. reflexivity.
Qed.

Lemma read_GetUserLoginInfo_query2 userId :
  read_statement (GetUserLoginInfo_query2 userId)
  = Some (SelectBanUnion "userban" "user_id" (VInt userId) "userban" "user_id" (VInt userId)).
Proof.
  unfold GetUserLoginInfo_query2, read_statement. read_text. reflexivity.
Qed.

Lemma read_GetIpBanInfo_query ip : plain ip = true ->
  read_statement (GetIpBanInfo_query ip)
  = Some (SelectBanUnion "ipban" "ip" (VStr ip) "ipban" "ip" (VStr ip)).
Proof.
  intros H. unfold GetIpBanInfo_query, read_statement. read_text. reflexivity.
Qed.

Lemma read_GetUserPostLoginInfo_query userId :
  read_statement (GetUserPostLoginInfo_query userId)
  = Some (SelectUser ["is_male"; "auth"; "default_character"; "rank"; "rank_record"; "points"; "code"] "user_id" (VInt userId)).
Proof.
  unfold GetUserPostLoginInfo_query, read_statement. read_text. reflexivity.
Qed.

Lemma read_CreateUserBan_query userId e :
  read_statement (CreateUserBan_query userId e)
  = Some (InsertBan "userban" "user_id" (VInt userId) (if e =? -1 then None else Some e)).
Proof.
  unfold CreateUserBan_query, expiration_clause, read_statement.
  destruct (e =? -1); read_text; reflexivity.
Qed.

Lemma read_CreateIpBan_query ip e : plain ip = true ->
  read_statement (CreateIpBan_query ip e)
  = Some (InsertBan "ipban" "ip" (VStr ip) (if e =? -1 then None else Some e)).
Proof.
  intros H. unfold CreateIpBan_query, expiration_clause, read_statement.
  destruct (e =? -1); read_text; reflexivity.
Qed.

Lemma read_CreateUser_query name password isMale ip :
  plain name = true -> plain password = true ->
  read_statement (CreateUser_query name password isMale ip)
  = Some (InsertUser name password (if isMale then 1 else 0)
            (if empty ip then Some EmptyString else None)).
Proof.
  intros H1 H2. unfold CreateUser_query, read_statement.
  destruct ip; cbn [empty]; read_text; reflexivity.
Qed.

End ReadFacts.

(** ** Running a statement *)

Module ExecFacts.
Import TextFacts Server Wrapper.

Lemma c_str_no_nul s : no_nul (c_str s) = true.
Proof.
  induction s as [|c s IH]; simpl; [reflexivity|].
  destruct (Ascii.eqb c zero) eqn:E; simpl; [reflexivity|].
  now rewrite E, IH.
Qed.

Lemma c_str_idem s : c_str (c_str s) = c_str s.
Proof. apply c_str_id, c_str_no_nul. Qed.

Lemma ExecuteQuery_execute mysql q db r :
  Server.execute (server mysql) (c_str q) = (db, r) ->
  ExecuteQuery mysql q = (mk_MYSQL db r, result_of r).
Proof.
  intros H. unfold ExecuteQuery, ExecuteQuery_string, ExecuteQueryUnsafe, mysql_query.
  rewrite c_str_idem, H. destruct r; reflexivity.
Qed.

Lemma ExecuteQuery_run mysql q st :
  no_nul q = true -> read_statement q = Some st ->
  ExecuteQuery mysql q =
    (mk_MYSQL (fst (run (server mysql) st)) (snd (run (server mysql) st)),
     result_of (snd (run (server mysql) st))).
Proof.
  intros Hn Hr. apply ExecuteQuery_execute.
  rewrite c_str_id by assumption. unfold execute. rewrite Hr.
  now destruct (run (server mysql) st).
Qed.

(** The three operations that return a generated id share their body. *)
Lemma generated_id mysql q db r id :
  Server.execute (server mysql) (c_str q) = (db, Answer r id) ->
  (let (mysql', x) := ExecuteQuery mysql q in
   (mysql', try_catch q (res <- x ;; Returns (Result.GetAutoGeneratedId res))))
  = (mk_MYSQL db (Answer r id), Ok (Int.to_int id)).
Proof.
  intros H. rewrite (ExecuteQuery_execute _ _ _ _ H). simpl.
  now destruct r.
Qed.

Ltac no_nul_text :=
  repeat rewrite no_nul_app;
  repeat rewrite print_no_nul;
  repeat match goal with
         | H : plain ?s = true |- _ => rewrite (plain_no_nul s H)
         end;
  reflexivity.

End ExecFacts.


(** ** What the operations do with the reference server *)

Module RunFacts.
Import Decimal DecimalFacts TextFacts ReadFacts ExecFacts Server Wrapper.

Lemma project_all_map columns rows :
  (forall r, project columns r <> None) ->
  project_all columns rows =
    Some (map (fun r => match project columns r with Some c => c | None => [] end) rows).
Proof.
  intros H. induction rows as [|r rows IH]; simpl; [reflexivity|].
  rewrite IH. destruct (project columns r) eqn:E; [reflexivity|]. now elim (H r).
Qed.

Lemma login_query1_response db userId :
  exists rows,
    run db (SelectUser ["password"; "is_deleted"] "id" (VInt userId))
    = (db, Answer (Some (mk_MYSQL_RES ["password"; "is_deleted"] rows 0)) 0).
Proof.
  eexists. cbn [run]. unfold select_user.
  change (user_column "id") with (Some (fun r => Some (VInt (u_id r)))).
  cbv beta iota.
  rewrite project_all_map by (intros r; cbn; discriminate).
  reflexivity.
Qed.

Lemma column_user_not_found insert_id rows :
  on (Result.new insert_id (Some (mk_MYSQL_RES ["password"; "is_deleted"] rows 0)))
     (Result.GetValue_s "user")
  = Throws (logic_error "Column name not found.").
Proof. reflexivity. Qed.

Lemma GetUserLoginInfo_run mysql userId :
  snd (GetUserLoginInfo mysql userId) =
    Failed (QueryException.new (GetUserLoginInfo_query1 userId) (Some base_what)).
Proof.
  unfold GetUserLoginInfo, GetUserLoginInfo_block1.
  assert (Hn : no_nul (GetUserLoginInfo_query1 userId) = true)
    by (unfold GetUserLoginInfo_query1; no_nul_text).
  rewrite (ExecuteQuery_run mysql _ _ Hn (read_GetUserLoginInfo_query1 userId)).
  destruct (login_query1_response (server mysql) userId) as [rows ->].
  cbn [fst snd result_of obind].
  rewrite column_user_not_found. reflexivity.
Qed.

Lemma GetUserPostLoginInfo_run mysql userId :
  GetUserPostLoginInfo mysql userId =
    (mk_MYSQL (server mysql) (QueryFailed (unknown_column "user_id")),
     Failed (QueryException.new (GetUserPostLoginInfo_query userId) (Some base_what))).
Proof.
  unfold GetUserPostLoginInfo.
  assert (Hn : no_nul (GetUserPostLoginInfo_query userId) = true)
    by (unfold GetUserPostLoginInfo_query; no_nul_text).
  rewrite (ExecuteQuery_run mysql _ _ Hn (read_GetUserPostLoginInfo_query userId)).
  reflexivity.
Qed.

Lemma CreateUserBan_run mysql userId e :
  CreateUserBan mysql userId e =
    (let db := server mysql in
     let id := userban_auto_increment db in
     let db' := mk_Database (user db)
           (userban db ++ [mk_ban id userId (if e =? -1 then None else FROM_UNIXTIME e)])%list
           (ipban db) (userip db)
           (user_auto_increment db) (id + 1) (ipban_auto_increment db)
           (user_defaults db) (now db) in
     (mk_MYSQL db' (Answer None id), Ok (Int.to_int id))).
Proof.
  unfold CreateUserBan.
  assert (Hn : no_nul (CreateUserBan_query userId e) = true).
  { unfold CreateUserBan_query, expiration_clause. destruct (negb (e =? -1)); no_nul_text. }
  rewrite (ExecuteQuery_run mysql _ _ Hn (read_CreateUserBan_query userId e)).
  destruct (e =? -1); reflexivity.
Qed.

Lemma CreateIpBan_run mysql ip e :
  plain ip = true ->
  CreateIpBan mysql ip e =
    (let db := server mysql in
     let id := ipban_auto_increment db in
     let db' := mk_Database (user db) (userban db)
           (ipban db ++ [mk_ban id ip (if e =? -1 then None else FROM_UNIXTIME e)])%list
           (userip db)
           (user_auto_increment db) (userban_auto_increment db) (id + 1)
           (user_defaults db) (now db) in
     (mk_MYSQL db' (Answer None id), Ok (Int.to_int id))).
Proof.
  intros Hp. unfold CreateIpBan.
  assert (Hn : no_nul (CreateIpBan_query ip e) = true).
  { unfold CreateIpBan_query, expiration_clause. destruct (negb (e =? -1)); no_nul_text. }
  rewrite (ExecuteQuery_run mysql _ _ Hn (read_CreateIpBan_query ip e Hp)).
  destruct (e =? -1); reflexivity.
Qed.

Lemma CreateUser_run mysql name password isMale creationIp :
  plain name = true -> plain password = true ->
  CreateUser mysql name password isMale creationIp =
    (let db := server mysql in
     let d := user_defaults db in
     let id := user_auto_increment db in
     let row :=
       mk_user id name password (if isMale then 1 else 0) (u_is_deleted d)
         (if empty creationIp then Some EmptyString else u_creation_ip d)
         (u_last_login_date d) (u_last_loginserver_online_date d)
         (u_last_gameserver_online_date d)
         (u_auth d) (u_default_character d) (u_rank d) (u_rank_record d)
         (u_points d) (u_code d) in
     (mk_MYSQL (set_user db (user db ++ [row])%list (id + 1)) (Answer None id),
      Ok (Int.to_int id))).
Proof.
  intros H1 H2. unfold CreateUser.
  assert (Hn : no_nul (CreateUser_query name password isMale creationIp) = true).
  { unfold CreateUser_query. destruct (empty creationIp) eqn:E.
    - destruct creationIp; [|discriminate]. no_nul_text.
    - no_nul_text. }
  rewrite (ExecuteQuery_run mysql _ _ Hn
             (read_CreateUser_query name password isMale creationIp H1 H2)).
  destruct (empty creationIp); reflexivity.
Qed.

End RunFacts.


(** ** Reading the first cell, and the lookup of a user *)

Module LookupFacts.
Import Decimal DecimalFacts TextFacts ReadFacts ExecFacts RunFacts Server Wrapper.

Lemma GetRowCount_new insert_id rs :
  Result.GetRowCount (Result.new insert_id (Some rs))
  = Returns (Int.to_int (mysql_num_rows rs)).
Proof. reflexivity. Qed.

Lemma GetValue_first_cell insert_id f fs cell cells rows :
  Z.of_nat (length (f :: fs)) <= Int.INT_MAX ->
  Z.of_nat (length ((cell :: cells) :: rows)) <= Int.INT_MAX ->
  exists this',
    on (Result.new insert_id (Some (mk_MYSQL_RES (f :: fs) ((cell :: cells) :: rows) 0)))
       Result.GetValue
    = Returns (mk_MysqlValue cell, this').
Proof.
  intros Hc Hr.
  unfold on, Result.GetValue, Result.GetValue_i, Result.GetValue_ii, Result.new.
  unfold mysql_num_rows, mysql_num_fields.
  cbn [res rowCount columnCount fetchedRows columnNames autoGeneratedId
       field_names data_rows].
  rewrite !IntFacts.to_int_small
    by (unfold Int.in_range, Int.INT_MIN, Int.INT_MAX in *; lia).
  set (nc := Z.of_nat (length (f :: fs))) in *.
  set (nr := Z.of_nat (length ((cell :: cells) :: rows))) in *.
  assert (Hnc : 1 <= nc) by (subst nc; cbn [length]; lia).
  assert (Hnr : 1 <= nr) by (subst nr; cbn [length]; lia).
  destruct (Z.eqb_spec nc 0); [lia|].
  destruct (Z.eqb_spec nr 0); [lia|].
  change (0 <? 0) with false. cbv iota.
  destruct (Z.gtb_spec 0 (nc - 1)); [lia|].
  destruct (Z.gtb_spec 0 (nr - 1)); [lia|].
  cbn. eexists. reflexivity.
Qed.

Lemma find_filter {A} (f : A -> bool) l : find f l = hd_error (filter f l).
Proof.
  induction l as [|x l IH]; simpl; [reflexivity|].
  destruct (f x); [reflexivity | exact IH].
Qed.

Lemma filter_length {A} (f : A -> bool) l : (length (filter f l) <= length l)%nat.
Proof.
  induction l as [|x l IH]; simpl; [lia|]. destruct (f x); simpl; lia.
Qed.

Lemma select_id_response db userName :
  run db (SelectUser ["id"] "name" (VStr userName))
  = (db, Answer (Some (mk_MYSQL_RES ["id"]
           (map (fun r => [Some (print (u_id r))])
                (filter (fun r => String.eqb (u_name r) userName) (user db))) 0)) 0).
Proof.
  cbn [run]. unfold select_user.
  change (user_column "name") with (Some (fun r => Some (VStr (u_name r)))).
  cbv beta iota.
  rewrite project_all_map by (intros r; cbn; discriminate).
  reflexivity.
Qed.

Lemma GetUserId_run mysql userName :
  plain userName = true ->
  Z.of_nat (length (user (server mysql))) <= Int.INT_MAX ->
  (forall r, In r (user (server mysql)) -> Int.in_range (u_id r)) ->
  server (fst (GetUserId mysql userName)) = server mysql /\
  snd (GetUserId mysql userName) =
    Ok (match find (fun r => String.eqb (u_name r) userName) (user (server mysql)) with
        | Some r => u_id r
        | None => 0
        end).
Proof.
  intros Hp Hlen Hid. unfold GetUserId.
  assert (Hn : no_nul (GetUserId_query userName) = true)
    by (unfold GetUserId_query; no_nul_text).
  rewrite (ExecuteQuery_run mysql _ _ Hn (read_GetUserId_query userName Hp)).
  rewrite select_id_response. cbn [fst snd server result_of obind].
  split; [reflexivity|].
  rewrite GetRowCount_new. cbn [obind]. unfold mysql_num_rows. cbn [data_rows].
  rewrite find_filter.
  pose proof (filter_length (fun r => String.eqb (u_name r) userName) (user (server mysql))) as Hf.
  assert (Hin : forall r, In r (filter (fun r => String.eqb (u_name r) userName)
                                 (user (server mysql))) -> Int.in_range (u_id r)).
  { intros r Hr. apply Hid. now apply filter_In in Hr. }
  destruct (filter (fun r => String.eqb (u_name r) userName) (user (server mysql)))
    as [|r rest]; [reflexivity|].
  cbn [map hd_error].
  assert (Hb : Z.of_nat (length ([Some (print (u_id r))]
                 :: map (fun r0 => [Some (print (u_id r0))]) rest)) <= Int.INT_MAX).
  { cbn [length] in *. rewrite length_map. lia. }
  rewrite IntFacts.to_int_small
    by (unfold Int.in_range, Int.INT_MIN, Int.INT_MAX in *; cbn [length] in *; lia).
  destruct (Z.gtb_spec (Z.of_nat (length ([Some (print (u_id r))]
                 :: map (fun r0 => [Some (print (u_id r0))]) rest))) 0) as [_|Hc];
    [|cbn [length] in Hc; lia].
  destruct (GetValue_first_cell 0 "id" [] (Some (print (u_id r))) [] _
              ltac:(unfold Int.INT_MAX; cbn; lia) Hb) as [this' ->].
  cbn [obind Value.AsInt value try_catch].
  rewrite atoi_print by (apply Hin; now left). reflexivity.
Qed.

End LookupFacts.

(** ** The ban statement *)

Module BanFacts.
Import Decimal DecimalFacts TextFacts ReadFacts ExecFacts RunFacts LookupFacts.
Import Server Wrapper.

Lemma null_branch_some d :
  existsb Spec.is_null d = true -> exists t, null_branch d = [None] :: t.
Proof.
  unfold null_branch. induction d as [|[e|] d IH]; simpl; intros H.
  - discriminate.
  - now apply IH.
  - eexists. reflexivity.
Qed.

Lemma null_branch_none d :
  existsb Spec.is_null d = false -> null_branch d = [].
Proof.
  unfold null_branch. induction d as [|[e|] d IH]; simpl; intros H.
  - reflexivity.
  - now apply IH.
  - discriminate.
Qed.

Lemma union_first x a b : firstn 1 (union (x :: a) b) = [x].
Proof.
  unfold union. cbn [app distinct_from].
  destruct (in_dec row_eq_dec x []) as [[]|_]. reflexivity.
Qed.

Lemma union_first_nil x b : firstn 1 (union [] (x :: b)) = [x].
Proof.
  unfold union. cbn [app distinct_from].
  destruct (in_dec row_eq_dec x []) as [[]|_]. reflexivity.
Qed.

Lemma timed_range d :
  Forall timestamp d -> Forall (fun e => 0 <= e <= Int.INT_MAX) (timed d).
Proof.
  induction 1 as [|[e|] d H _ IH]; simpl; auto.
Qed.

(** The try body on the answer to the ban statement. *)
Lemma read_ban_expiration_union d1 d2 :
  d1 = d2 -> Forall timestamp d1 ->
  read_ban_expiration
    (Returns (Result.new 0 (Some (mk_MYSQL_RES ["expiration_date_unix"]
                (firstn 1 (union (null_branch d1) (timed_branch d2))) 0))))
  = Returns (BanRows.first_listed d1).
Proof.
  intros <- Hd. unfold read_ban_expiration, BanRows.first_listed. cbn [obind].
  rewrite GetRowCount_new. cbn [obind]. unfold mysql_num_rows. cbn [data_rows].
  destruct (existsb Spec.is_null d1) eqn:En.
  - destruct (null_branch_some d1 En) as [t ->]. rewrite union_first.
    destruct (GetValue_first_cell 0 "expiration_date_unix" [] None [] []
                ltac:(unfold Int.INT_MAX; cbn; lia)
                ltac:(unfold Int.INT_MAX; cbn; lia)) as [this' ->].
    reflexivity.
  - rewrite (null_branch_none d1 En). unfold timed_branch.
    pose proof (timed_range d1 Hd) as Hr.
    destruct (timed d1) as [|e es]; [reflexivity|].
    cbn [map]. rewrite union_first_nil.
    destruct (GetValue_first_cell 0 "expiration_date_unix" []
                (Some (print e)) [] []
                ltac:(unfold Int.INT_MAX; cbn; lia)
                ltac:(unfold Int.INT_MAX; cbn; lia)) as [this' ->].
    cbn. f_equal. apply atoi_print.
    inversion Hr; subst. unfold Int.in_range, Int.INT_MIN. lia.
Qed.

Lemma Forall_filter_dates {K} (f : ban_row K -> bool) rows :
  Forall timestamp (map b_expiration_date rows) ->
  Forall timestamp (map b_expiration_date (filter f rows)).
Proof.
  induction rows as [|r rows IH]; simpl; intros H; [constructor|].
  inversion H; subst. destruct (f r); simpl; auto.
Qed.

Lemma GetUserLoginInfo_block2_run mysql userId :
  Forall timestamp (map b_expiration_date (userban (server mysql))) ->
  GetUserLoginInfo_block2 mysql userId =
    (mk_MYSQL (server mysql)
       (select_ban_union (server mysql) "userban" "user_id" (VInt userId)
          "userban" "user_id" (VInt userId)),
     Ok (BanRows.first_listed (BanRows.of_user (server mysql) userId))).
Proof.
  intros Hd. unfold GetUserLoginInfo_block2.
  assert (Hn : no_nul (GetUserLoginInfo_query2 userId) = true)
    by (unfold GetUserLoginInfo_query2; no_nul_text).
  rewrite (ExecuteQuery_run mysql _ _ Hn (read_GetUserLoginInfo_query2 userId)).
  cbn [run fst snd]. f_equal.
  change (select_ban_union (server mysql) "userban" "user_id" (VInt userId)
            "userban" "user_id" (VInt userId))
    with (Answer (Some (mk_MYSQL_RES ["expiration_date_unix"]
            (firstn 1 (union (null_branch (BanRows.of_user (server mysql) userId))
                             (timed_branch (BanRows.of_user (server mysql) userId)))) 0)) 0).
  cbn [result_of].
  rewrite read_ban_expiration_union;
    [reflexivity | reflexivity | now apply Forall_filter_dates].
Qed.

Lemma GetIpBanInfo_run mysql ip :
  plain ip = true ->
  Forall timestamp (map b_expiration_date (ipban (server mysql))) ->
  GetIpBanInfo mysql ip =
    (mk_MYSQL (server mysql)
       (select_ban_union (server mysql) "ipban" "ip" (VStr ip) "ipban" "ip" (VStr ip)),
     Ok (mk_IpBanInfo (BanRows.first_listed (BanRows.of_ip (server mysql) ip)))).
Proof.
  intros Hp Hd. unfold GetIpBanInfo.
  assert (Hn : no_nul (GetIpBanInfo_query ip) = true)
    by (unfold GetIpBanInfo_query; no_nul_text).
  rewrite (ExecuteQuery_run mysql _ _ Hn (read_GetIpBanInfo_query ip Hp)).
  cbn [run fst snd]. f_equal.
  change (select_ban_union (server mysql) "ipban" "ip" (VStr ip) "ipban" "ip" (VStr ip))
    with (Answer (Some (mk_MYSQL_RES ["expiration_date_unix"]
            (firstn 1 (union (null_branch (BanRows.of_ip (server mysql) ip))
                             (timed_branch (BanRows.of_ip (server mysql) ip)))) 0)) 0).
  cbn [result_of].
  rewrite read_ban_expiration_union;
    [reflexivity | reflexivity | now apply Forall_filter_dates].
Qed.

End BanFacts.

(* ================================================================= *)
(** * Statements of the specification *)

Import Server Wrapper.

(** C8.  The one-argument accessor [GetValue(col)] is [GetValue(0, col)]
    for a column index as for a column name, and [GetValue()] is
    [GetValue(0, 0)]: same value or same exception, and the same caches
    left in the object. *)
Theorem GetValue_shorthands (this : MysqlResult) :
  (forall columnIndex,
     Result.GetValue_i columnIndex this = Result.GetValue_ii 0 columnIndex this) /\
  (forall columnName,
     Result.GetValue_s columnName this = Result.GetValue_is 0 columnName this) /\
  Result.GetValue this = Result.GetValue_ii 0 0 this.
Proof. repeat split. Qed.

(** C10.  The id an insert operation returns is the server's unsigned
    64-bit insert id cast to [int]: a value of the [int] range congruent to
    it modulo 2^32, equal to it below 2^31 and different from it from
    2^31 on. *)
Theorem generated_id_narrowed (mysql : MYSQL) (db : Database)
    (r : option MYSQL_RES) (id : Z) :
  0 <= id <= Int.ULONGLONG_MAX ->
  (forall name password isMale creationIp,
     Server.execute (server mysql)
       (c_str (CreateUser_query name password isMale creationIp))
       = (db, Answer r id) ->
     snd (CreateUser mysql name password isMale creationIp) = Ok (Int.to_int id)) /\
  (forall userId e,
     Server.execute (server mysql) (c_str (CreateUserBan_query userId e))
       = (db, Answer r id) ->
     snd (CreateUserBan mysql userId e) = Ok (Int.to_int id)) /\
  (forall ip e,
     Server.execute (server mysql) (c_str (CreateIpBan_query ip e))
       = (db, Answer r id) ->
     snd (CreateIpBan mysql ip e) = Ok (Int.to_int id)) /\
  Int.in_range (Int.to_int id) /\
  Int.to_int id mod Int.modulus = id mod Int.modulus /\
  (id <= Int.INT_MAX -> Int.to_int id = id) /\
  (Int.INT_MAX < id -> Int.to_int id <> id).
Proof.
  intros Hid. repeat split.
  - intros name password isMale creationIp H. unfold CreateUser.
    now rewrite (ExecFacts.generated_id _ _ _ _ _ H).
  - intros userId e H. unfold CreateUserBan.
    now rewrite (ExecFacts.generated_id _ _ _ _ _ H).
  - intros ip e H. unfold CreateIpBan.
    now rewrite (ExecFacts.generated_id _ _ _ _ _ H).
  - apply IntFacts.to_int_range.
  - apply IntFacts.to_int_range.
  - destruct (IntFacts.to_int_congr id) as [k ->].
    apply Z.mod_add. unfold Int.modulus. lia.
  - intros H. apply IntFacts.to_int_small. unfold Int.in_range, Int.INT_MIN. lia.
  - intros H E. pose proof (IntFacts.to_int_range id) as [_ Hr]. lia.
Qed.

Lemma generated_id_narrowed_witness :
  snd (CreateUser (Sample.connect Sample.big_db) "alice" "H" true EmptyString)
    = Ok (-1294967296) /\
  snd (CreateUserBan (Sample.connect Sample.big_db) 1 (-1)) = Ok (-1294967295) /\
  snd (CreateIpBan (Sample.connect Sample.big_db) "10.0.0.1" 5) = Ok (-1294967294).
Proof.
  split; [|split].
  - destruct (generated_id_narrowed (Sample.connect Sample.big_db)
               (fst (Server.execute Sample.big_db
                       (CreateUser_query "alice" "H" true EmptyString)))
               None 3000000000 ltac:(unfold Int.ULONGLONG_MAX; lia))
      as (H & _).
    exact (H "alice" "H" true EmptyString eq_refl).
  - destruct (generated_id_narrowed (Sample.connect Sample.big_db)
               (fst (Server.execute Sample.big_db (CreateUserBan_query 1 (-1))))
               None 3000000001 ltac:(unfold Int.ULONGLONG_MAX; lia))
      as (_ & H & _).
    exact (H 1 (-1) eq_refl).
  - destruct (generated_id_narrowed (Sample.connect Sample.big_db)
               (fst (Server.execute Sample.big_db (CreateIpBan_query "10.0.0.1" 5)))
               None 3000000002 ltac:(unfold Int.ULONGLONG_MAX; lia))
      as (_ & _ & H & _).
    exact (H "10.0.0.1" 5 eq_refl).
Defined.



(** C3.  [GetUserLoginInfo] selects the columns [password] and
    [is_deleted] but asks the result for a column named [user]; the lookup
    throws "Column name not found.", so for every session and user id the
    operation ends in a [QueryException] on its first statement and no
    password is returned. *)
Theorem GetUserLoginInfo_asks_for_column_user (mysql : MYSQL) (userId : Z) :
  (forall insert_id rows,
     on (Result.new insert_id
           (Some (mk_MYSQL_RES ["password"; "is_deleted"] rows 0)))
        (Result.GetValue_s "user")
     = Throws (logic_error "Column name not found.")) /\
  snd (GetUserLoginInfo mysql userId) =
    Failed (QueryException.new (GetUserLoginInfo_query1 userId) (Some base_what)).
Proof.
  split.
  - intros insert_id rows. apply RunFacts.column_user_not_found.
  - apply RunFacts.GetUserLoginInfo_run.
Qed.

(** C4.  The statement of [GetUserPostLoginInfo] filters on [user_id],
    which is no column of [user] (its key is [id]); the server rejects the
    statement and the operation ends in a [QueryException] for every session
    and user id, also for the user of scenario S6. *)
Theorem GetUserPostLoginInfo_filters_on_user_id (mysql : MYSQL) (userId : Z) :
  GetUserPostLoginInfo_query userId =
    ("SELECT is_male, auth, default_character, rank, rank_record, points, code FROM user WHERE user_id = "
     ++ Decimal.print userId)%string /\
  Server.user_column "user_id" = None /\
  GetUserPostLoginInfo mysql userId =
    (mk_MYSQL (server mysql) (QueryFailed (unknown_column "user_id")),
     Failed (QueryException.new (GetUserPostLoginInfo_query userId) (Some base_what))) /\
  snd (GetUserPostLoginInfo (Sample.connect Sample.db) 3) =
    Failed (QueryException.new
      "SELECT is_male, auth, default_character, rank, rank_record, points, code FROM user WHERE user_id = 3"
      (Some base_what)).
Proof.
  split; [reflexivity|]. split; [reflexivity|]. split.
  - apply RunFacts.GetUserPostLoginInfo_run.
  - reflexivity.
Qed.

(** C7.  A [QueryException] keeps the statement text, but the handler
    catches [std::exception] by value, so the cause it passes on is the text
    of a plain [std::exception]: two different failures of one statement give
    the same exception, and the server's message is not in it. *)
Theorem QueryException_cause_is_sliced (A : Type) (query : string)
    (e1 e2 : cpp_exception) :
  @try_catch A query (Throws e1) = try_catch query (Throws e2) /\
  (exists ex, @try_catch A query (Throws e1) = Failed ex /\
              QueryException.GetQuery ex = query /\
              QueryException.what ex =
                c_str ("An error occurred when processing a query: " ++ base_what
                       ++ " The query string was: " ++ query)%string) /\
  (let r := GetUserId (Sample.connect Sample.db) "a'b" in
   mysql_error (fst r) = Server.syntax_error /\
   snd r = Failed (mk_QueryException "SELECT id FROM user WHERE name = 'a'b'"
     "An error occurred when processing a query: std::exception The query string was: SELECT id FROM user WHERE name = 'a'b'")).
Proof.
  split; [reflexivity|]. split.
  - eexists. repeat split.
  - split; reflexivity.
Qed.

(** C2.  [CreateUser] appends the [creation_ip] assignment when the
    address is empty and leaves it out when an address is given: a call with
    a non-empty address sends a statement without the column, and the new row
    has the column's default. *)
Theorem CreateUser_leaves_out_given_ip (mysql : MYSQL) (name password : string)
    (isMale : bool) (creationIp : string) :
  plain name = true -> plain password = true -> creationIp <> EmptyString ->
  CreateUser_query name password isMale creationIp =
    ("INSERT INTO user SET name = '" ++ name ++ "',password = '" ++ password
     ++ "',is_male = " ++ Decimal.print (if isMale then 1 else 0) ++ EmptyString)%string /\
  CreateUser_query name password isMale EmptyString =
    ("INSERT INTO user SET name = '" ++ name ++ "',password = '" ++ password
     ++ "',is_male = " ++ Decimal.print (if isMale then 1 else 0)
     ++ ", creation_ip = ''")%string /\
  exists row,
    user (server (fst (CreateUser mysql name password isMale creationIp)))
      = (user (server mysql) ++ [row])%list /\
    u_name row = name /\ u_password row = password /\
    u_is_male row = (if isMale then 1 else 0) /\
    u_creation_ip row = u_creation_ip (user_defaults (server mysql)).
Proof.
  intros H1 H2 Hip.
  assert (E : empty creationIp = false)
    by (destruct creationIp; [now elim Hip | reflexivity]).
  split; [unfold CreateUser_query; now rewrite E|].
  split; [reflexivity|].
  rewrite RunFacts.CreateUser_run by assumption. rewrite E.
  eexists. cbn. repeat split.
Qed.

Lemma CreateUser_leaves_out_given_ip_witness :
  CreateUser_query "alice" "H" true "1.2.3.4" =
    "INSERT INTO user SET name = 'alice',password = 'H',is_male = 1" /\
  exists row,
    user (server (fst (CreateUser (Sample.connect Sample.empty_db)
                         "alice" "H" true "1.2.3.4"))) = [row] /\
    u_creation_ip row = None.
Proof.
  destruct (CreateUser_leaves_out_given_ip (Sample.connect Sample.empty_db)
              "alice" "H" true "1.2.3.4" eq_refl eq_refl
              ltac:(discriminate))
    as (Hq & _ & row & Hrow & _ & _ & _ & Hip).
  split; [exact Hq|]. exists row. split; [exact Hrow | exact Hip].
Defined.

(** C6.  [CreateUserBan] and [CreateIpBan] leave the date column out of
    the statement when the expiration is -1, so the new row has NULL there;
    for any other expiration they assign FROM_UNIXTIME of it.  The row is
    added at the end of its table with the next generated id, which the call
    returns (cast to [int]). *)
Theorem CreateBan_expiration (mysql : MYSQL) (ip : string) (userId e : Z) :
  plain ip = true ->
  let db := server mysql in
  (CreateUserBan_query userId e =
     ("INSERT INTO userban SET user_id = " ++ Decimal.print userId ++
      (if (e =? -1)%Z then EmptyString
       else ", expiration_date = FROM_UNIXTIME(" ++ Decimal.print e ++ ")"))%string /\
   userban (server (fst (CreateUserBan mysql userId e))) =
     (userban db ++
      [mk_ban (userban_auto_increment db) userId
         (if e =? -1 then None else FROM_UNIXTIME e)])%list /\
   snd (CreateUserBan mysql userId e) = Ok (Int.to_int (userban_auto_increment db)) /\
   (Int.in_range (userban_auto_increment db) ->
    snd (CreateUserBan mysql userId e) = Ok (userban_auto_increment db))) /\
  (CreateIpBan_query ip e =
     ("INSERT INTO ipban SET ip = '" ++ ip ++ "'" ++
      (if (e =? -1)%Z then EmptyString
       else ", expiration_date = FROM_UNIXTIME(" ++ Decimal.print e ++ ")"))%string /\
   ipban (server (fst (CreateIpBan mysql ip e))) =
     (ipban db ++
      [mk_ban (ipban_auto_increment db) ip
         (if e =? -1 then None else FROM_UNIXTIME e)])%list /\
   snd (CreateIpBan mysql ip e) = Ok (Int.to_int (ipban_auto_increment db)) /\
   (Int.in_range (ipban_auto_increment db) ->
    snd (CreateIpBan mysql ip e) = Ok (ipban_auto_increment db))).
Proof.
  intros Hp db. split.
  - rewrite RunFacts.CreateUserBan_run. repeat split.
    + unfold CreateUserBan_query, expiration_clause. now destruct (e =? -1).
    + intros H. cbn. now rewrite IntFacts.to_int_small.
  - rewrite RunFacts.CreateIpBan_run by assumption. repeat split.
    + unfold CreateIpBan_query, expiration_clause. now destruct (e =? -1).
    + intros H. cbn. now rewrite IntFacts.to_int_small.
Qed.

Lemma CreateBan_expiration_witness :
  (userban (server (fst (CreateUserBan (Sample.connect Sample.empty_db) 1 (-1))))
     = [mk_ban 1 1 None] /\
   snd (CreateUserBan (Sample.connect Sample.empty_db) 1 (-1)) = Ok 1) /\
  (ipban (server (fst (CreateIpBan (Sample.connect Sample.empty_db)
                         "10.0.0.1" 1700000000)))
     = [mk_ban 1 "10.0.0.1" (Some 1700000000)] /\
   snd (CreateIpBan (Sample.connect Sample.empty_db) "10.0.0.1" 1700000000) = Ok 1).
Proof.
  split.
  - destruct (CreateBan_expiration (Sample.connect Sample.empty_db)
                "10.0.0.1" 1 (-1) eq_refl) as ((_ & H1 & H2 & _) & _).
    split; [exact H1 | exact H2].
  - destruct (CreateBan_expiration (Sample.connect Sample.empty_db)
                "10.0.0.1" 1 1700000000 eq_refl) as (_ & (_ & H1 & H2 & _)).
    split; [exact H1 | exact H2].
Defined.

(** C5.  [GetUserId] returns the id of the first row of [user] whose
    name is the one asked for, and 0, without throwing, when there is none.
    The name is text that can stand between quotes as it is, the table has
    at most INT_MAX rows and its ids are in the range of [int]; the
    database is left as it was. *)
Theorem GetUserId_lookup (mysql : MYSQL) (userName : string) :
  plain userName = true ->
  Z.of_nat (length (user (server mysql))) <= Int.INT_MAX ->
  (forall r, In r (user (server mysql)) -> Int.in_range (u_id r)) ->
  server (fst (GetUserId mysql userName)) = server mysql /\
  snd (GetUserId mysql userName) =
    Ok (match find (fun r => String.eqb (u_name r) userName) (user (server mysql)) with
        | Some r => u_id r
        | None => 0
        end) /\
  ((forall r, In r (user (server mysql)) -> u_name r <> userName) ->
   snd (GetUserId mysql userName) = Ok 0).
Proof.
  intros Hp Hlen Hid.
  destruct (LookupFacts.GetUserId_run mysql userName Hp Hlen Hid) as [H1 H2].
  split; [exact H1|]. split; [exact H2|].
  intros Hno. rewrite H2.
  destruct (find (fun r => String.eqb (u_name r) userName) (user (server mysql)))
    as [r|] eqn:E; [|reflexivity].
  apply find_some in E as [Hin Heq]. apply String.eqb_eq in Heq.
  now elim (Hno r Hin).
Qed.

Lemma GetUserId_lookup_witness :
  snd (GetUserId (Sample.connect Sample.db) "carol") = Ok 3 /\
  snd (GetUserId (Sample.connect Sample.db) "bob") = Ok 0.
Proof.
  assert (Hlen : Z.of_nat (length (user (server (Sample.connect Sample.db))))
                 <= Int.INT_MAX) by (unfold Int.INT_MAX; cbn; lia).
  assert (Hid : forall r, In r (user (server (Sample.connect Sample.db))) ->
                          Int.in_range (u_id r)).
  { intros r [<-|[<-|[]]]; unfold Int.in_range, Int.INT_MIN, Int.INT_MAX; cbn; lia. }
  split.
  - exact (proj1 (proj2 (GetUserId_lookup (Sample.connect Sample.db) "carol"
                           eq_refl Hlen Hid))).
  - exact (proj1 (proj2 (GetUserId_lookup (Sample.connect Sample.db) "bob"
                           eq_refl Hlen Hid))).
Defined.

(** C1.  Ban resolution does not give the largest date.  The statement of
    [GetIpBanInfo], and of the second block of [GetUserLoginInfo], asks for
    the timed rows with an ORDER BY ... DESC inside a parenthesised member of
    the UNION, where the server does not apply it; the try body reads the
    first row of the answer only.  So the result is -1 if a matching row has
    no date and 0 if there is no matching row, as specified, but otherwise it
    is the date of the first matching row in table order: two bans created
    as 1700000000 and then 1800000000 resolve to 1700000000, and created in
    the other order to 1800000000.  [GetUserLoginInfo] itself fails on its
    first statement and returns no ban expiration at all. *)
Theorem ban_resolution_takes_first_row (mysql : MYSQL) (userId : Z) (ip : string) :
  plain ip = true ->
  Forall timestamp (map b_expiration_date (userban (server mysql))) ->
  Forall timestamp (map b_expiration_date (ipban (server mysql))) ->
  snd (GetIpBanInfo mysql ip) =
    Ok (mk_IpBanInfo (BanRows.first_listed (BanRows.of_ip (server mysql) ip))) /\
  snd (GetUserLoginInfo_block2 mysql userId) =
    Ok (BanRows.first_listed (BanRows.of_user (server mysql) userId)) /\
  snd (GetUserLoginInfo mysql userId) =
    Failed (QueryException.new (GetUserLoginInfo_query1 userId) (Some base_what)) /\
  (forall dates,
     existsb Spec.is_null dates = true \/ dates = [] ->
     BanRows.first_listed dates = Spec.ban_resolution dates) /\
  (let earlier_first :=
     fst (CreateIpBan
            (fst (CreateIpBan (Sample.connect Sample.empty_db) "10.0.0.1" 1700000000))
            "10.0.0.1" 1800000000) in
   let later_first :=
     fst (CreateIpBan
            (fst (CreateIpBan (Sample.connect Sample.empty_db) "10.0.0.1" 1800000000))
            "10.0.0.1" 1700000000) in
   snd (GetIpBanInfo earlier_first "10.0.0.1") = Ok (mk_IpBanInfo 1700000000) /\
   Spec.ban_resolution (BanRows.of_ip (server earlier_first) "10.0.0.1") = 1800000000 /\
   snd (GetIpBanInfo later_first "10.0.0.1") = Ok (mk_IpBanInfo 1800000000) /\
   Permutation (BanRows.of_ip (server earlier_first) "10.0.0.1")
               (BanRows.of_ip (server later_first) "10.0.0.1")) /\
  snd (GetUserLoginInfo_block2 (Sample.connect Sample.db) 1) = Ok 1700000000 /\
  Spec.ban_resolution (BanRows.of_user Sample.db 1) = 1800000000.
Proof.
  intros Hp Hu Hi.
  rewrite BanFacts.GetUserLoginInfo_block2_run by assumption.
  rewrite BanFacts.GetIpBanInfo_run by assumption.
  split; [reflexivity|]. split; [reflexivity|].
  split; [apply RunFacts.GetUserLoginInfo_run|].
  split.
  - intros dates [H| ->]; [|reflexivity].
    unfold BanRows.first_listed, Spec.ban_resolution. now rewrite H.
  - split; [|split; reflexivity].
    split; [reflexivity|]. split; [reflexivity|]. split; [reflexivity|].
    cbn. apply perm_swap.
Qed.

Lemma ban_resolution_takes_first_row_witness :
  snd (GetIpBanInfo (Sample.connect Sample.db) "10.0.0.2") = Ok (mk_IpBanInfo 5) /\
  snd (GetUserLoginInfo_block2 (Sample.connect Sample.db) 3) = Ok (-1) /\
  snd (GetUserLoginInfo (Sample.connect Sample.db) 1) =
    Failed (QueryException.new "SELECT password, is_deleted FROM user WHERE id = 1"
              (Some base_what)).
Proof.
  assert (Hu : Forall timestamp
                 (map b_expiration_date (userban (server (Sample.connect Sample.db)))))
    by (repeat constructor; unfold Int.INT_MAX; lia).
  assert (Hi : Forall timestamp
                 (map b_expiration_date (ipban (server (Sample.connect Sample.db)))))
    by (repeat constructor; unfold Int.INT_MAX; lia).
  split; [|split].
  - exact (proj1 (ban_resolution_takes_first_row (Sample.connect Sample.db) 1 "10.0.0.2"
                    eq_refl Hu Hi)).
  - exact (proj1 (proj2 (ban_resolution_takes_first_row (Sample.connect Sample.db) 3
                           "10.0.0.2" eq_refl Hu Hi))).
  - exact (proj1 (proj2 (proj2 (ban_resolution_takes_first_row (Sample.connect Sample.db)
                                  1 "10.0.0.2" eq_refl Hu Hi)))).
Defined.

(* ================================================================= *)
(** * Further properties of the wrapper *)

(** ** The caches of MysqlResult *)

Module CacheFacts.

Lemma firstn_snoc {A} (l : list A) k x :
  nth_error l k = Some x -> firstn (S k) l = (firstn k l ++ [x])%list.
Proof.
  revert k. induction l as [|y l IH]; intros [|k] H; simpl in *; try discriminate.
  - now inversion H.
  - f_equal. now apply IH.
Qed.

Lemma fetch_rows_firstn fields data n : forall k,
  (k + n <= length data)%nat ->
  Result.fetch_rows n (mk_MYSQL_RES fields data k) (map Some (firstn k data))
  = (mk_MYSQL_RES fields data (k + n), map Some (firstn (k + n) data)).
Proof.
  induction n as [|n IH]; intros k Hk.
  - rewrite Nat.add_0_r. reflexivity.
  - cbn [Result.fetch_rows]. unfold mysql_fetch_row. cbn [data_rows data_cursor field_names].
    destruct (nth_error data k) as [row|] eqn:E.
    + rewrite <- map_last, <- (firstn_snoc _ _ _ E).
      rewrite IH by lia. now rewrite Nat.add_succ_r.
    + apply nth_error_None in E. lia.
Qed.

Lemma nth_error_firstn_lt {A} (data : list A) : forall m r,
  (r < m)%nat -> nth_error (firstn m data) r = nth_error data r.
Proof.
  induction data as [|x l IH]; intros m r H.
  - now rewrite firstn_nil.
  - destruct m as [|m]; [lia|]. destruct r as [|r]; [reflexivity|].
    simpl. apply IH. lia.
Qed.

Lemma nth_error_fetched {A} (data : list A) m r :
  (r < m)%nat -> nth_error (map Some (firstn m data)) r
                 = option_map Some (nth_error data r).
Proof.
  intros H. rewrite nth_error_map. f_equal. now apply nth_error_firstn_lt.
Qed.

Lemma new_consistent insert_id rs :
  Cache.well_formed rs -> data_cursor rs = 0%nat ->
  Cache.consistent rs (Result.new insert_id (Some rs)).
Proof.
  intros (Hrect & Hr & Hc) H0. exists 0%nat. destruct rs as [f d k].
  cbn in *. subst k.
  repeat split; try lia; auto.
  - unfold mysql_num_rows. cbn. apply IntFacts.to_int_small.
    unfold Int.in_range, Int.INT_MIN, Int.INT_MAX in *. lia.
  - unfold mysql_num_fields. cbn. apply IntFacts.to_int_small.
    unfold Int.in_range, Int.INT_MIN, Int.INT_MAX in *. lia.
Qed.

Lemma GetValue_ii_in_range rs this r c :
  Cache.well_formed rs -> Cache.consistent rs this ->
  0 <= r < Z.of_nat (length (data_rows rs)) ->
  0 <= c < Z.of_nat (length (field_names rs)) ->
  exists cell this',
    Result.GetValue_ii r c this = (Returns (mk_MysqlValue cell), this') /\
    Cache.cell_at rs r c = Some cell /\
    Cache.consistent rs this' /\
    (Z.of_nat (length (fetchedRows this')) =
       Z.max (Z.of_nat (length (fetchedRows this))) (r + 1)).
Proof.
  intros (Hrect & Hr & Hc) (k & Hk & Eres & Ef & Erc & Ecc & En) Hrow Hcol.
  unfold Result.GetValue_ii. rewrite Eres, Ecc, Erc.
  destruct (Z.eqb_spec (Z.of_nat (length (field_names rs))) 0); [lia|].
  destruct (Z.eqb_spec (Z.of_nat (length (data_rows rs))) 0); [lia|].
  destruct (Z.ltb_spec c 0); [lia|].
  destruct (Z.ltb_spec r 0); [lia|].
  destruct (Z.gtb_spec c (Z.of_nat (length (field_names rs)) - 1)); [lia|].
  destruct (Z.gtb_spec r (Z.of_nat (length (data_rows rs)) - 1)); [lia|].
  assert (Hlen : length (fetchedRows this) = k).
  { rewrite Ef, length_map, length_firstn. lia. }
  destruct (nth_error (data_rows rs) (Z.to_nat r)) as [row|] eqn:Erow;
    [|apply nth_error_None in Erow; lia].
  assert (Hrowlen : length row = length (field_names rs)).
  { rewrite Forall_forall in Hrect. apply Hrect. eapply nth_error_In; eassumption. }
  destruct (nth_error row (Z.to_nat c)) as [cell|] eqn:Ecell;
    [|apply nth_error_None in Ecell; lia].
  exists cell.
  rewrite Hlen. unfold MYSQL_ROW in *.
  destruct (Z.gtb_spec r (Z.of_nat k - 1)) as [Hgt|Hle].
  - rewrite Ef.
    rewrite (fetch_rows_firstn (field_names rs) (data_rows rs)
               (Z.to_nat (r - Z.of_nat k + 1)) k) by lia.
    replace (k + Z.to_nat (r - Z.of_nat k + 1))%nat with (S (Z.to_nat r)) by lia.
    rewrite nth_error_fetched by lia. rewrite Erow. cbn [option_map]. rewrite Ecell.
    eexists. split; [reflexivity|]. split.
    { unfold Cache.cell_at. now rewrite Erow. }
    split.
    { exists (S (Z.to_nat r)). cbn. repeat split; auto. lia. }
    cbn [fetchedRows]. rewrite length_map, length_firstn. lia.
  - rewrite Ef. rewrite nth_error_fetched by lia. rewrite Erow. cbn [option_map].
    rewrite Ecell.
    eexists. split; [reflexivity|]. split.
    { unfold Cache.cell_at. now rewrite Erow. }
    split.
    { exists k. cbn. repeat split; auto. }
    cbn [fetchedRows]. rewrite length_map, length_firstn. lia.
Qed.

Lemma GetValue_ii_out_of_range rs this r c :
  Cache.consistent rs this ->
  ~ (0 <= r < Z.of_nat (length (data_rows rs)) /\
     0 <= c < Z.of_nat (length (field_names rs))) ->
  exists m, Result.GetValue_ii r c this = (Throws (out_of_range m), this).
Proof.
  intros (k & Hk & Eres & Ef & Erc & Ecc & En) Hout.
  unfold Result.GetValue_ii. rewrite Eres, Ecc, Erc.
  destruct (Z.eqb_spec (Z.of_nat (length (field_names rs))) 0); [eexists; reflexivity|].
  destruct (Z.eqb_spec (Z.of_nat (length (data_rows rs))) 0); [eexists; reflexivity|].
  destruct (Z.ltb_spec c 0); [eexists; reflexivity|].
  destruct (Z.ltb_spec r 0); [eexists; reflexivity|].
  destruct (Z.gtb_spec c (Z.of_nat (length (field_names rs)) - 1)); [eexists; reflexivity|].
  destruct (Z.gtb_spec r (Z.of_nat (length (data_rows rs)) - 1)); [eexists; reflexivity|].
  lia.
Qed.

Lemma find_index_bounds l x : 0 <= Result.find_index l x <= Z.of_nat (length l).
Proof.
  induction l as [|y l IH]; cbn [Result.find_index length]; [lia|].
  destruct (String.eqb y x); lia.
Qed.

Lemma scan_fields_find fields : forall i columnName names columnIndex,
  0 <= i ->
  Result.scan_fields fields i columnName names columnIndex =
    ((names ++ fields)%list,
     if columnIndex =? -1 then
       if Result.find_index fields columnName =? Z.of_nat (length fields) then -1
       else i + Result.find_index fields columnName
     else columnIndex).
Proof.
  induction fields as [|f fs IH]; intros i columnName names columnIndex Hi.
  - cbn. rewrite app_nil_r. destruct (Z.eqb_spec columnIndex (-1)); congruence.
  - cbn [Result.scan_fields Result.find_index length].
    rewrite IH by lia. rewrite <- app_assoc. cbn [app]. f_equal.
    pose proof (find_index_bounds fs columnName) as Hb.
    destruct (Z.eqb_spec columnIndex (-1)) as [->|Hne]; cbn [andb].
    + destruct (String.eqb f columnName).
      * destruct (Z.eqb_spec i (-1)); [lia|].
        destruct (Z.eqb_spec 0 (Z.of_nat (S (length fs)))); lia.
      * rewrite Z.eqb_refl.
        destruct (Z.eqb_spec (Result.find_index fs columnName) (Z.of_nat (length fs)));
          destruct (Z.eqb_spec (1 + Result.find_index fs columnName)
                               (Z.of_nat (S (length fs)))); lia.
    + destruct (Z.eqb_spec columnIndex (-1)); [lia|reflexivity].
Qed.

Lemma find_index_found l x :
  Result.find_index l x < Z.of_nat (length l) ->
  nth_error l (Z.to_nat (Result.find_index l x)) = Some x /\
  forall j, 0 <= j < Result.find_index l x -> nth_error l (Z.to_nat j) <> Some x.
Proof.
  induction l as [|y l IH]; cbn [Result.find_index length]; [lia|].
  pose proof (find_index_bounds l x) as Hb.
  destruct (String.eqb_spec y x) as [->|Hne]; intros H.
  - split; [reflexivity | intros j Hj; lia].
  - destruct IH as [IH1 IH2]; [lia|]. split.
    + replace (Z.to_nat (1 + Result.find_index l x))
        with (S (Z.to_nat (Result.find_index l x))) by lia.
      exact IH1.
    + intros j Hj. destruct (Z.to_nat j) as [|n] eqn:E; cbn.
      * congruence.
      * replace n with (Z.to_nat (j - 1)) by lia. apply IH2. lia.
Qed.

Lemma find_index_absent l x :
  Result.find_index l x = Z.of_nat (length l) <-> ~ In x l.
Proof.
  induction l as [|y l IH]; cbn [Result.find_index length In]; [tauto|].
  pose proof (find_index_bounds l x) as Hb.
  destruct (String.eqb_spec y x) as [->|Hne].
  - split; [lia | tauto].
  - split.
    + intros H [E|Hin]; [contradiction|]. apply IH in Hin; [assumption|lia].
    + intros H. assert (E : Result.find_index l x = Z.of_nat (length l))
        by (apply IH; tauto). lia.
Qed.

Lemma FindColumnIndex_consistent rs this columnName :
  Cache.consistent rs this ->
  0 < Z.of_nat (length (field_names rs)) ->
  exists this',
    Result.FindColumnIndex columnName this =
      ((if Result.find_index (field_names rs) columnName
            <? Z.of_nat (length (field_names rs))
        then Returns (Result.find_index (field_names rs) columnName)
        else Throws (logic_error "Column name not found.")), this') /\
    columnNames this' = field_names rs /\
    fetchedRows this' = fetchedRows this /\
    res this' = res this /\
    Cache.consistent rs this'.
Proof.
  intros (k & Hk & Eres & Ef & Erc & Ecc & En) Hcols.
  pose proof (find_index_bounds (field_names rs) columnName) as Hb.
  exists (mk_MysqlResult (Some (mk_MYSQL_RES (field_names rs) (data_rows rs) k))
            (rowCount this) (Z.of_nat (length (field_names rs))) (field_names rs)
            (fetchedRows this) (autoGeneratedId this)).
  split; [|split; [reflexivity|split; [reflexivity|split; [now symmetry|]]]].
  - unfold Result.FindColumnIndex. rewrite Eres, Ecc. cbn [field_names].
    destruct (Z.eqb_spec (Z.of_nat (length (field_names rs))) 0); [lia|].
    destruct (columnNames this) as [|n0 ns] eqn:Enames.
    + rewrite Nat2Z.id, firstn_all.
      rewrite scan_fields_find by lia. cbn [app]. rewrite Z.eqb_refl.
      destruct (Z.eqb_spec (Result.find_index (field_names rs) columnName)
                           (Z.of_nat (length (field_names rs)))) as [E|E].
      * rewrite E, Z.ltb_irrefl. reflexivity.
      * rewrite Z.add_0_l.
        destruct (Z.eqb_spec (Result.find_index (field_names rs) columnName) (-1));
          [lia|].
        destruct (Z.eqb_spec (Result.find_index (field_names rs) columnName)
                             (Z.of_nat (length (field_names rs)))); [lia|].
        destruct (Z.ltb_spec (Result.find_index (field_names rs) columnName)
                             (Z.of_nat (length (field_names rs)))); [reflexivity|lia].
    + destruct En as [En|En]; [discriminate|]. rewrite En.
      destruct (Z.eqb_spec (Result.find_index (field_names rs) columnName) (-1));
        [lia|].
      destruct (Z.eqb_spec (Result.find_index (field_names rs) columnName)
                           (Z.of_nat (length (field_names rs))));
        destruct (Z.ltb_spec (Result.find_index (field_names rs) columnName)
                             (Z.of_nat (length (field_names rs))));
        try lia; reflexivity.
  - exists k. cbn. repeat split; auto.
Qed.

End CacheFacts.

Import Cache.

(** X1.  A [MysqlResult] built on a well-formed result set agrees with it,
    and every accessor keeps it so, whether it returns or throws: the rows
    cached are the first rows of the set, the cursor stands behind them, and
    the cached column names are those of the set. *)
Theorem MysqlResult_stays_consistent (rs : MYSQL_RES) :
  well_formed rs -> data_cursor rs = 0%nat ->
  (forall insert_id, consistent rs (Result.new insert_id (Some rs))) /\
  (forall this, consistent rs this ->
     (forall rowIndex columnIndex,
        consistent rs (snd (Result.GetValue_ii rowIndex columnIndex this))) /\
     (forall columnName,
        consistent rs (snd (Result.FindColumnIndex columnName this))) /\
     (forall rowIndex columnName,
        consistent rs (snd (Result.GetValue_is rowIndex columnName this)))).
Proof.
  intros Hwf H0.
  assert (G : forall this r c, consistent rs this ->
                consistent rs (snd (Result.GetValue_ii r c this))).
  { intros this r c Hc.
    destruct (Z_lt_dec r 0) as [?|?];
      [destruct (CacheFacts.GetValue_ii_out_of_range rs this r c Hc ltac:(lia))
         as [m ->]; exact Hc|].
    destruct (Z_lt_dec r (Z.of_nat (length (data_rows rs)))) as [?|?];
      [|destruct (CacheFacts.GetValue_ii_out_of_range rs this r c Hc ltac:(lia))
          as [m ->]; exact Hc].
    destruct (Z_lt_dec c 0) as [?|?];
      [destruct (CacheFacts.GetValue_ii_out_of_range rs this r c Hc ltac:(lia))
         as [m ->]; exact Hc|].
    destruct (Z_lt_dec c (Z.of_nat (length (field_names rs)))) as [?|?];
      [|destruct (CacheFacts.GetValue_ii_out_of_range rs this r c Hc ltac:(lia))
          as [m ->]; exact Hc].
    destruct (CacheFacts.GetValue_ii_in_range rs this r c Hwf Hc
                ltac:(lia) ltac:(lia)) as (cell & this' & -> & _ & H & _).
    exact H. }
  assert (F : forall this name, consistent rs this ->
                consistent rs (snd (Result.FindColumnIndex name this))).
  { intros this name Hc.
    destruct (Z_lt_dec 0 (Z.of_nat (length (field_names rs)))) as [Hpos|Hzero].
    - destruct (CacheFacts.FindColumnIndex_consistent rs this name Hc Hpos)
        as (this' & -> & _ & _ & _ & H). exact H.
    - destruct Hc as (k & Hk & Eres & Ef & Erc & Ecc & En) eqn:E.
      unfold Result.FindColumnIndex. rewrite Eres, Ecc.
      replace (Z.of_nat (length (field_names rs))) with 0 by lia.
      cbn. exists k. repeat split; assumption. }
  split; [intros insert_id; now apply CacheFacts.new_consistent|].
  intros this Hc. split; [intros r c; now apply G|].
  split; [intros name; now apply F|].
  intros r name. unfold Result.GetValue_is, Result.bind.
  pose proof (F this name Hc) as Hf.
  destruct (Result.FindColumnIndex name this) as [[i|e|] this']; cbn [snd] in *;
    [now apply G | exact Hf | exact Hf].
Qed.

Lemma sample_well_formed : well_formed SampleResult.rs.
Proof.
  split; [repeat constructor | split; unfold Int.INT_MAX; cbn; lia].
Defined.

Lemma MysqlResult_stays_consistent_witness :
  consistent SampleResult.rs
    (snd (Result.GetValue_ii 1 0 (Result.new 0 (Some SampleResult.rs)))).
Proof.
  destruct (MysqlResult_stays_consistent SampleResult.rs sample_well_formed eq_refl)
    as [Hnew Hkeep].
  exact (proj1 (Hkeep _ (Hnew 0)) 1 0).
Defined.

(** X2.  With both indices in range, [GetValue(rowIndex, columnIndex)]
    returns the cell of that row and column of the result set, whatever was
    fetched before: rows are fetched up to the one asked for and kept, so
    afterwards the cache holds the larger of its former size and
    rowIndex + 1 rows. *)
Theorem GetValue_ii_returns_cell (rs : MYSQL_RES) (this : MysqlResult)
    (rowIndex columnIndex : Z) :
  well_formed rs -> consistent rs this ->
  0 <= rowIndex < Z.of_nat (length (data_rows rs)) ->
  0 <= columnIndex < Z.of_nat (length (field_names rs)) ->
  exists cell,
    fst (Result.GetValue_ii rowIndex columnIndex this) = Returns (mk_MysqlValue cell) /\
    cell_at rs rowIndex columnIndex = Some cell /\
    Z.of_nat (length (fetchedRows (snd (Result.GetValue_ii rowIndex columnIndex this))))
      = Z.max (Z.of_nat (length (fetchedRows this))) (rowIndex + 1).
Proof.
  intros Hwf Hc Hr Hcol.
  destruct (CacheFacts.GetValue_ii_in_range rs this rowIndex columnIndex Hwf Hc Hr Hcol)
    as (cell & this' & -> & H1 & _ & H2).
  exists cell. auto.
Qed.

Lemma GetValue_ii_returns_cell_witness :
  exists cell,
    fst (Result.GetValue_ii 1 1 (Result.new 0 (Some SampleResult.rs)))
      = Returns (mk_MysqlValue cell) /\
    cell_at SampleResult.rs 1 1 = Some cell /\
    Z.of_nat (length (fetchedRows
      (snd (Result.GetValue_ii 1 1 (Result.new 0 (Some SampleResult.rs)))))) = 2.
Proof.
  destruct (GetValue_ii_returns_cell SampleResult.rs
              (Result.new 0 (Some SampleResult.rs)) 1 1 sample_well_formed
              (CacheFacts.new_consistent 0 SampleResult.rs sample_well_formed eq_refl)
              ltac:(cbn; lia) ltac:(cbn; lia))
    as (cell & H1 & H2 & H3).
  exists cell. repeat split; assumption.
Defined.

(** X3.  With an index out of range (negative, past the last row or
    column, or any index on a result set without rows or without columns)
    [GetValue(rowIndex, columnIndex)] throws [out_of_range] and leaves the
    object as it was. *)
Theorem GetValue_ii_checks_bounds (rs : MYSQL_RES) (this : MysqlResult)
    (rowIndex columnIndex : Z) :
  consistent rs this ->
  ~ (0 <= rowIndex < Z.of_nat (length (data_rows rs)) /\
     0 <= columnIndex < Z.of_nat (length (field_names rs))) ->
  exists message,
    Result.GetValue_ii rowIndex columnIndex this = (Throws (out_of_range message), this).
Proof. apply CacheFacts.GetValue_ii_out_of_range. Qed.

Lemma GetValue_ii_checks_bounds_witness :
  exists message,
    Result.GetValue_ii 2 0 (Result.new 0 (Some SampleResult.rs))
    = (Throws (out_of_range message), Result.new 0 (Some SampleResult.rs)).
Proof.
  apply (GetValue_ii_checks_bounds SampleResult.rs).
  - apply CacheFacts.new_consistent; [apply sample_well_formed | reflexivity].
  - cbn. lia.
Defined.

(** X4.  On a result set with columns, [FindColumnIndex] returns the index
    of the first column with the given name and throws "Column name not
    found." when there is none.  The answer is the same on the first call,
    which scans the fields, as on later ones, which search the cached names;
    after any call the cache holds the names of all columns. *)
Theorem FindColumnIndex_first_match (rs : MYSQL_RES) (this : MysqlResult)
    (columnName : string) :
  consistent rs this ->
  0 < Z.of_nat (length (field_names rs)) ->
  (In columnName (field_names rs) ->
   exists i,
     fst (Result.FindColumnIndex columnName this) = Returns i /\
     0 <= i < Z.of_nat (length (field_names rs)) /\
     nth_error (field_names rs) (Z.to_nat i) = Some columnName /\
     forall j, 0 <= j < i -> nth_error (field_names rs) (Z.to_nat j) <> Some columnName) /\
  (~ In columnName (field_names rs) ->
   fst (Result.FindColumnIndex columnName this)
     = Throws (logic_error "Column name not found.")) /\
  (forall this2, consistent rs this2 ->
     fst (Result.FindColumnIndex columnName this2)
       = fst (Result.FindColumnIndex columnName this)) /\
  columnNames (snd (Result.FindColumnIndex columnName this)) = field_names rs.
Proof.
  intros Hc Hpos.
  destruct (CacheFacts.FindColumnIndex_consistent rs this columnName Hc Hpos)
    as (this' & E & Hn & _ & _ & _).
  pose proof (CacheFacts.find_index_bounds (field_names rs) columnName) as Hb.
  rewrite E. cbn [fst snd]. repeat split.
  - intros Hin. exists (Result.find_index (field_names rs) columnName).
    assert (Hlt : Result.find_index (field_names rs) columnName
                  < Z.of_nat (length (field_names rs))).
    { destruct (Z.eq_dec (Result.find_index (field_names rs) columnName)
                         (Z.of_nat (length (field_names rs)))) as [Heq|Hne]; [|lia].
      apply CacheFacts.find_index_absent in Heq. contradiction. }
    destruct (CacheFacts.find_index_found _ _ Hlt) as [H1 H2].
    destruct (Z.ltb_spec (Result.find_index (field_names rs) columnName)
                         (Z.of_nat (length (field_names rs)))); [|lia].
    repeat split; try assumption; lia.
  - intros Hnot. apply CacheFacts.find_index_absent in Hnot.
    rewrite Hnot, Z.ltb_irrefl. reflexivity.
  - intros this2 Hc2.
    destruct (CacheFacts.FindColumnIndex_consistent rs this2 columnName Hc2 Hpos)
      as (this2' & -> & _). reflexivity.
  - exact Hn.
Qed.

Lemma FindColumnIndex_first_match_witness :
  fst (Result.FindColumnIndex "user" (Result.new 0 (Some SampleResult.rs)))
    = Throws (logic_error "Column name not found.") /\
  exists i,
    fst (Result.FindColumnIndex "is_deleted" (Result.new 0 (Some SampleResult.rs)))
      = Returns i /\
    nth_error (field_names SampleResult.rs) (Z.to_nat i) = Some "is_deleted".
Proof.
  assert (Hc : consistent SampleResult.rs (Result.new 0 (Some SampleResult.rs)))
    by (apply CacheFacts.new_consistent; [apply sample_well_formed | reflexivity]).
  split.
  - assert (Hnot : ~ In "user" (field_names SampleResult.rs))
      by (intros H; cbn in H; destruct H as [H|[H|[]]]; discriminate).
    exact (proj1 (proj2 (FindColumnIndex_first_match SampleResult.rs _ "user" Hc
                           ltac:(cbn; lia))) Hnot).
  - destruct (proj1 (FindColumnIndex_first_match SampleResult.rs _ "is_deleted" Hc
                       ltac:(cbn; lia)) ltac:(cbn; tauto))
      as (i & H1 & _ & H2 & _).
    exists i. split; assumption.
Defined.

(** X5.  [GetValue(rowIndex, columnName)] returns the cell of that row in
    the first column with that name, and throws "Column name not found."
    for a name the result set does not have. *)
Theorem GetValue_is_by_name (rs : MYSQL_RES) (this : MysqlResult)
    (rowIndex : Z) (columnName : string) :
  well_formed rs -> consistent rs this ->
  0 <= rowIndex < Z.of_nat (length (data_rows rs)) ->
  0 < Z.of_nat (length (field_names rs)) ->
  (In columnName (field_names rs) ->
   exists i cell,
     fst (Result.GetValue_is rowIndex columnName this) = Returns (mk_MysqlValue cell) /\
     fst (Result.FindColumnIndex columnName this) = Returns i /\
     nth_error (field_names rs) (Z.to_nat i) = Some columnName /\
     cell_at rs rowIndex i = Some cell) /\
  (~ In columnName (field_names rs) ->
   fst (Result.GetValue_is rowIndex columnName this)
     = Throws (logic_error "Column name not found.")).
Proof.
  intros Hwf Hc Hr Hpos.
  destruct (CacheFacts.FindColumnIndex_consistent rs this columnName Hc Hpos)
    as (this' & E & _ & _ & _ & Hc').
  pose proof (CacheFacts.find_index_bounds (field_names rs) columnName) as Hb.
  unfold Result.GetValue_is, Result.bind. rewrite E. split.
  - intros Hin.
    assert (Hlt : Result.find_index (field_names rs) columnName
                  < Z.of_nat (length (field_names rs))).
    { destruct (Z.eq_dec (Result.find_index (field_names rs) columnName)
                         (Z.of_nat (length (field_names rs)))) as [Heq|Hne]; [|lia].
      apply CacheFacts.find_index_absent in Heq. contradiction. }
    destruct (Z.ltb_spec (Result.find_index (field_names rs) columnName)
                         (Z.of_nat (length (field_names rs)))); [|lia].
    destruct (CacheFacts.GetValue_ii_in_range rs this' rowIndex
                (Result.find_index (field_names rs) columnName) Hwf Hc' Hr ltac:(lia))
      as (cell & this'' & E2 & Hcell & _).
    exists (Result.find_index (field_names rs) columnName), cell.
    rewrite E2. cbn [fst]. repeat split; try assumption.
    apply (CacheFacts.find_index_found _ _ Hlt).
  - intros Hnot. apply CacheFacts.find_index_absent in Hnot.
    rewrite Hnot, Z.ltb_irrefl. reflexivity.
Qed.

Lemma GetValue_is_by_name_witness :
  exists i cell,
    fst (Result.GetValue_is 1 "is_deleted" (Result.new 0 (Some SampleResult.rs)))
      = Returns (mk_MysqlValue cell) /\
    fst (Result.FindColumnIndex "is_deleted" (Result.new 0 (Some SampleResult.rs)))
      = Returns i /\
    nth_error (field_names SampleResult.rs) (Z.to_nat i) = Some "is_deleted" /\
    cell_at SampleResult.rs 1 i = Some cell.
Proof.
  apply (GetValue_is_by_name SampleResult.rs (Result.new 0 (Some SampleResult.rs))
           1 "is_deleted" sample_well_formed).
  - apply CacheFacts.new_consistent; [apply sample_well_formed | reflexivity].
  - cbn. lia.
  - cbn. lia.
  - cbn. tauto.
Defined.

(** ** The values of a result *)

(** X6.  The conversions of [MysqlValue] read back the decimal text of any
    [int]: [AsInt] gives the number that was printed, [AsBool] tells whether
    it is non-zero, [AsString] gives the text itself; on the null value each
    of them throws [logic_error]. *)
Theorem MysqlValue_reads_printed_int (z : Z) :
  Int.in_range z ->
  Value.AsInt (mk_MysqlValue (Some (Decimal.print z))) = Returns z /\
  Value.AsBool (mk_MysqlValue (Some (Decimal.print z))) = Returns (negb (z =? 0)) /\
  Value.AsString (mk_MysqlValue (Some (Decimal.print z))) = Returns (Decimal.print z) /\
  (exists m, Value.AsInt (mk_MysqlValue None) = Throws (logic_error m)) /\
  (exists m, Value.AsBool (mk_MysqlValue None) = Throws (logic_error m)) /\
  (exists m, Value.AsString (mk_MysqlValue None) = Throws (logic_error m)).
Proof.
  intros Hz. unfold Value.AsBool, Value.AsInt, Value.AsString. cbn [value].
  rewrite TextFacts.atoi_print by assumption.
  repeat split; eexists; reflexivity.
Qed.

Lemma MysqlValue_reads_printed_int_witness :
  Value.AsInt (mk_MysqlValue (Some (Decimal.print (-42)))) = Returns (-42).
Proof.
  apply (MysqlValue_reads_printed_int (-42)).
  unfold Int.in_range, Int.INT_MIN, Int.INT_MAX. lia.
Defined.


(** ** Sending a statement *)

Module OperationFacts.
Import Decimal DecimalFacts TextFacts ReadFacts ExecFacts RunFacts LookupFacts BanFacts.
Import Server Wrapper Statements.

Lemma c_str_app_NUL a b : c_str (a ++ String zero b) = c_str a.
Proof.
  induction a as [|c a IH]; cbn; [reflexivity|].
  destruct (Ascii.eqb c zero); [reflexivity|]. now rewrite IH.
Qed.

Lemma read_CreateOrUpdateUserIp_query userId ip : plain ip = true ->
  read_statement (CreateOrUpdateUserIp_query userId ip) = Some (UpsertUserIp userId ip).
Proof.
  intros H. unfold CreateOrUpdateUserIp_query, read_statement. read_text. reflexivity.
Qed.

Lemma read_UpdateUserLastLoginDate_query userId :
  read_statement (UpdateUserLastLoginDate_query userId)
  = Some (UpdateUserNow "last_login_date" "id" (VInt userId)).
Proof. unfold UpdateUserLastLoginDate_query, read_statement. read_text. reflexivity. Qed.

Lemma read_UpdateUserLastLoginServerOnlineDate_query userId :
  read_statement (UpdateUserLastLoginServerOnlineDate_query userId)
  = Some (UpdateUserNow "last_loginserver_online_date" "id" (VInt userId)).
Proof.
  unfold UpdateUserLastLoginServerOnlineDate_query, read_statement. read_text.
  reflexivity.
Qed.

Lemma read_UpdateUserLastGameServerOnlineDate_query userId :
  read_statement (UpdateUserLastGameServerOnlineDate_query userId)
  = Some (UpdateUserNow "last_gameserver_online_date" "id" (VInt userId)).
Proof.
  unfold UpdateUserLastGameServerOnlineDate_query, read_statement. read_text.
  reflexivity.
Qed.

Lemma run_only_run mysql q st :
  no_nul q = true -> read_statement q = Some st ->
  (forall e, snd (run (server mysql) st) <> QueryFailed e) ->
  (forall e, snd (run (server mysql) st) <> StoreFailed e) ->
  run_only mysql q
  = (mk_MYSQL (fst (run (server mysql) st)) (snd (run (server mysql) st)), Ok tt).
Proof.
  intros Hn Hr H1 H2. unfold run_only. rewrite (ExecuteQuery_run _ _ _ Hn Hr).
  destruct (snd (run (server mysql) st)) as [e|e|rs id] eqn:E.
  - now elim (H1 e).
  - now elim (H2 e).
  - reflexivity.
Qed.

Lemma UpdateUserLastLoginDate_run mysql userId :
  UpdateUserLastLoginDate mysql userId =
    (mk_MYSQL (set_user (server mysql)
                 (Touched.rows Touched.last_login_date (server mysql) userId)
                 (user_auto_increment (server mysql)))
              (Answer None 0), Ok tt).
Proof.
  change (UpdateUserLastLoginDate mysql userId)
    with (run_only mysql (UpdateUserLastLoginDate_query userId)).
  assert (Hn : no_nul (UpdateUserLastLoginDate_query userId) = true)
    by (unfold UpdateUserLastLoginDate_query; no_nul_text).
  rewrite (run_only_run mysql _ _ Hn (read_UpdateUserLastLoginDate_query userId));
    [reflexivity | discriminate | discriminate].
Qed.

Lemma UpdateUserLastLoginServerOnlineDate_run mysql userId :
  UpdateUserLastLoginServerOnlineDate mysql userId =
    (mk_MYSQL (set_user (server mysql)
                 (Touched.rows Touched.last_loginserver_online_date (server mysql) userId)
                 (user_auto_increment (server mysql)))
              (Answer None 0), Ok tt).
Proof.
  change (UpdateUserLastLoginServerOnlineDate mysql userId)
    with (run_only mysql (UpdateUserLastLoginServerOnlineDate_query userId)).
  assert (Hn : no_nul (UpdateUserLastLoginServerOnlineDate_query userId) = true)
    by (unfold UpdateUserLastLoginServerOnlineDate_query; no_nul_text).
  rewrite (run_only_run mysql _ _ Hn
             (read_UpdateUserLastLoginServerOnlineDate_query userId));
    [reflexivity | discriminate | discriminate].
Qed.

Lemma UpdateUserLastGameServerOnlineDate_run mysql userId :
  UpdateUserLastGameServerOnlineDate mysql userId =
    (mk_MYSQL (set_user (server mysql)
                 (Touched.rows Touched.last_gameserver_online_date (server mysql) userId)
                 (user_auto_increment (server mysql)))
              (Answer None 0), Ok tt).
Proof.
  change (UpdateUserLastGameServerOnlineDate mysql userId)
    with (run_only mysql (UpdateUserLastGameServerOnlineDate_query userId)).
  assert (Hn : no_nul (UpdateUserLastGameServerOnlineDate_query userId) = true)
    by (unfold UpdateUserLastGameServerOnlineDate_query; no_nul_text).
  rewrite (run_only_run mysql _ _ Hn
             (read_UpdateUserLastGameServerOnlineDate_query userId));
    [reflexivity | discriminate | discriminate].
Qed.

Lemma rows_unchanged set db userId :
  (forall r, In r (user db) -> u_id r <> userId) ->
  Touched.rows set db userId = user db.
Proof.
  unfold Touched.rows. intros H.
  induction (user db) as [|r l IH]; cbn [map]; [reflexivity|].
  destruct (Z.eqb_spec (u_id r) userId) as [E|_].
  - now elim (H r (or_introl eq_refl)).
  - f_equal. apply IH. intros r' Hr'. apply H. now right.
Qed.

Lemma CreateOrUpdateUserIp_run mysql userId ip :
  plain ip = true ->
  CreateOrUpdateUserIp mysql userId ip =
    (mk_MYSQL (fst (upsert_userip (server mysql) userId ip)) (Answer None 0), Ok tt).
Proof.
  intros Hp.
  change (CreateOrUpdateUserIp mysql userId ip)
    with (run_only mysql (CreateOrUpdateUserIp_query userId ip)).
  assert (Hn : no_nul (CreateOrUpdateUserIp_query userId ip) = true)
    by (unfold CreateOrUpdateUserIp_query; no_nul_text).
  rewrite (run_only_run mysql _ _ Hn (read_CreateOrUpdateUserIp_query userId ip Hp));
    [reflexivity | discriminate | discriminate].
Qed.

Lemma set_user_same db : set_user db (user db) (user_auto_increment db) = db.
Proof. now destruct db. Qed.

Lemma same_pair_refl userId ip : same_pair userId ip (mk_userip userId ip 0) = true.
Proof.
  unfold same_pair. cbn [ui_user_id ui_ip].
  now rewrite Z.eqb_refl, String.eqb_refl.
Qed.

Lemma filter_other_pairs userId ip t l :
  filter (fun r => negb (same_pair userId ip r)) (map (Touched.pair userId ip t) l)
  = filter (fun r => negb (same_pair userId ip r)) l.
Proof.
  induction l as [|r l IH]; cbn [map filter]; [reflexivity|].
  unfold Touched.pair at 1. destruct (same_pair userId ip r) eqn:E.
  - unfold same_pair at 1. cbn [ui_user_id ui_ip].
    rewrite Z.eqb_refl, String.eqb_refl. cbn [andb negb]. exact IH.
  - rewrite E. cbn [negb]. rewrite IH. unfold Touched.pair. now rewrite E.
Qed.

Lemma touched_pairs userId ip t l r :
  In r (map (Touched.pair userId ip t) l) -> same_pair userId ip r = true ->
  ui_last_show_up_date r = t.
Proof.
  intros Hin Hs. apply in_map_iff in Hin as (r0 & <- & _).
  unfold Touched.pair in *. destruct (same_pair userId ip r0) eqn:E; [reflexivity|].
  congruence.
Qed.

Lemma existsb_touched userId ip t l :
  existsb (same_pair userId ip) (map (Touched.pair userId ip t) l)
  = existsb (same_pair userId ip) l.
Proof.
  induction l as [|r l IH]; cbn [map existsb]; [reflexivity|].
  rewrite IH. f_equal. unfold Touched.pair. destruct (same_pair userId ip r) eqn:E.
  - unfold same_pair. cbn [ui_user_id ui_ip]. now rewrite Z.eqb_refl, String.eqb_refl.
  - exact E.
Qed.

Lemma find_app_fresh {A} (f : A -> bool) l x :
  (forall y, In y l -> f y = false) -> f x = true -> find f (l ++ [x]) = Some x.
Proof.
  intros Hl Hx. induction l as [|y l IH]; cbn.
  - now rewrite Hx.
  - rewrite (Hl y (or_introl eq_refl)). apply IH. intros z Hz. apply Hl. now right.
Qed.

Lemma timed_app d d' : timed (d ++ d') = (timed d ++ timed d')%list.
Proof.
  induction d as [|[e|] d IH]; cbn; [reflexivity| |assumption]. now rewrite IH.
Qed.

Lemma first_listed_snoc d x :
  BanRows.first_listed (d ++ [x]) =
    match x, d with
    | None, _ => -1
    | Some e, [] => e
    | Some _, _ :: _ => BanRows.first_listed d
    end.
Proof.
  unfold BanRows.first_listed. rewrite existsb_app, timed_app.
  cbn [existsb Spec.is_null].
  destruct x as [e|]; cbn [timed Spec.is_null];
    [|rewrite !orb_true_r; reflexivity].
  rewrite !orb_false_r. destruct d as [|y d]; [reflexivity|].
  destruct (existsb Spec.is_null (y :: d)) eqn:E; [reflexivity|].
  destruct y as [a|]; [reflexivity | discriminate].
Qed.

Lemma of_ip_snoc db db' ip id ip' x :
  ipban db' = (ipban db ++ [mk_ban id ip' x])%list ->
  BanRows.of_ip db' ip =
    (BanRows.of_ip db ip ++ (if String.eqb ip' ip then [x] else []))%list.
Proof.
  intros E. unfold BanRows.of_ip. rewrite E, filter_app, map_app. cbn.
  now destruct (String.eqb ip' ip).
Qed.

End OperationFacts.

Import Decimal DecimalFacts TextFacts ReadFacts ExecFacts RunFacts LookupFacts BanFacts.
Import OperationFacts Statements.

(** X7.  The statement reaches the server as a C string: [ExecuteQuery]
    sends the text before the first NUL character and nothing after it. *)
Theorem ExecuteQuery_stops_at_NUL (mysql : MYSQL) (a b : string) :
  ExecuteQuery mysql (a ++ String zero b) = ExecuteQuery mysql a /\
  ExecuteQuery mysql a =
    (mk_MYSQL (fst (Server.execute (server mysql) (c_str a)))
              (snd (Server.execute (server mysql) (c_str a))),
     result_of (snd (Server.execute (server mysql) (c_str a)))).
Proof.
  split.
  - unfold ExecuteQuery. now rewrite c_str_app_NUL.
  - apply ExecFacts.ExecuteQuery_execute.
    now destruct (execute (server mysql) (c_str a)).
Qed.


(** X8.  [ExecuteQuery] takes the query lock and gives it back on every
    way out.  Whatever the client library answers - the statement refused,
    the statement accepted and its result not fetched, or success - the lock
    is free afterwards and the outcome is the exception or result that answer
    calls for; with the library of this embedding the result is that of
    [ExecuteQuery] without the lock.  Inside, [ExecuteQueryUnsafe] runs with
    the lock held, keeps it when it returns and has released it when it
    throws. *)
Theorem ExecuteQuery_releases_lock (send : MYSQL -> string -> Z * MYSQL)
    (mysql : MYSQL) (queryString : string) :
  Locking.ExecuteQuery send mysql Locking.Unlocked queryString =
    (snd (send mysql (c_str (c_str queryString))), Some Locking.Unlocked,
     Locking.expected (fst (send mysql (c_str (c_str queryString))))
                      (snd (send mysql (c_str (c_str queryString))))) /\
  Locking.ExecuteQueryUnsafe send mysql Locking.Locked queryString =
    (snd (send mysql (c_str queryString)),
     Some (match Locking.expected (fst (send mysql (c_str queryString)))
                                  (snd (send mysql (c_str queryString))) with
           | Returns _ => Locking.Locked
           | _ => Locking.Unlocked
           end),
     Locking.expected (fst (send mysql (c_str queryString)))
                      (snd (send mysql (c_str queryString)))) /\
  Locking.ExecuteQuery mysql_query mysql Locking.Unlocked queryString =
    (fst (ExecuteQuery mysql queryString), Some Locking.Unlocked,
     snd (ExecuteQuery mysql queryString)) /\
  Locking.ExecuteQuery Locking.store_fails mysql Locking.Unlocked queryString =
    (mk_MYSQL (server mysql)
       (Server.StoreFailed "Lost connection to MySQL server during query"),
     Some Locking.Unlocked,
     Throws (runtime_error
       "An error occurred when storing a result from a MySQL query: Lost connection to MySQL server during query")).
Proof.
  unfold Locking.ExecuteQuery, Locking.ExecuteQuery_string, Locking.ExecuteQueryUnsafe,
    Locking.expected, ExecuteQuery, ExecuteQuery_string, ExecuteQueryUnsafe,
    GetLastMysqlError.
  cbn [Locking.lock]. repeat split.
  - destruct (send mysql (c_str (c_str queryString))) as [rc mysql1]. cbn [fst snd].
    destruct (negb (rc =? 0)); [reflexivity|].
    destruct (negb (mysql_errno mysql1 =? 0)); reflexivity.
  - destruct (send mysql (c_str queryString)) as [rc mysql1]. cbn [fst snd].
    destruct (negb (rc =? 0)); [reflexivity|].
    destruct (negb (mysql_errno mysql1 =? 0)); reflexivity.
  - destruct (mysql_query mysql (c_str (c_str queryString))) as [rc mysql1].
    destruct (negb (rc =? 0)); [reflexivity|].
    destruct (negb (mysql_errno mysql1 =? 0)); reflexivity.
Qed.

(** ** The operations on the reference server *)



(** X10.  Each of the three update operations sets its own date column to
    the current time in the rows of [user] with the given id, leaves every
    other row and table as it was and returns normally; when no row has the
    id nothing changes and the call still succeeds. *)
Theorem Update_touches_only_matching_rows (mysql : MYSQL) (userId : Z) :
  let db := server mysql in
  (UpdateUserLastLoginDate mysql userId =
     (mk_MYSQL (set_user db (Touched.rows Touched.last_login_date db userId)
                  (user_auto_increment db)) (Answer None 0), Ok tt) /\
   UpdateUserLastLoginServerOnlineDate mysql userId =
     (mk_MYSQL (set_user db (Touched.rows Touched.last_loginserver_online_date db userId)
                  (user_auto_increment db)) (Answer None 0), Ok tt) /\
   UpdateUserLastGameServerOnlineDate mysql userId =
     (mk_MYSQL (set_user db (Touched.rows Touched.last_gameserver_online_date db userId)
                  (user_auto_increment db)) (Answer None 0), Ok tt)) /\
  ((forall r, In r (user db) -> u_id r <> userId) ->
   UpdateUserLastLoginDate mysql userId = (mk_MYSQL db (Answer None 0), Ok tt) /\
   UpdateUserLastLoginServerOnlineDate mysql userId =
     (mk_MYSQL db (Answer None 0), Ok tt) /\
   UpdateUserLastGameServerOnlineDate mysql userId =
     (mk_MYSQL db (Answer None 0), Ok tt)).
Proof.
  intros db.
  rewrite UpdateUserLastLoginDate_run, UpdateUserLastLoginServerOnlineDate_run,
    UpdateUserLastGameServerOnlineDate_run.
  split; [repeat split|].
  intros Hno. subst db. rewrite !rows_unchanged by assumption.
  rewrite set_user_same. repeat split.
Qed.


Lemma Update_touches_only_matching_rows_witness :
  UpdateUserLastLoginDate (Sample.connect Sample.db) 7 =
    (mk_MYSQL Sample.db (Answer None 0), Ok tt) /\
  u_last_login_date
    (nth 0 (user (server (fst (UpdateUserLastLoginDate (Sample.connect Sample.db) 1))))
       Sample.defaults) = Some 1000.
Proof.
  split.
  - apply (proj2 (Update_touches_only_matching_rows (Sample.connect Sample.db) 7)).
    intros r [<-|[<-|[]]]; discriminate.
  - rewrite (proj1 (proj1 (Update_touches_only_matching_rows
                             (Sample.connect Sample.db) 1))).
    reflexivity.
Defined.

(** X11.  [CreateOrUpdateUserIp] makes sure there is a row of [userip]
    for the pair: a new pair is added as one row at the end, an existing one
    gets the current time as its date; rows of other pairs and the other
    tables stay as they were, and calling it again adds no row. *)
Theorem CreateOrUpdateUserIp_upserts (mysql : MYSQL) (userId : Z) (ip : string) :
  plain ip = true ->
  let db := server mysql in
  let after := server (fst (CreateOrUpdateUserIp mysql userId ip)) in
  snd (CreateOrUpdateUserIp mysql userId ip) = Ok tt /\
  (existsb (same_pair userId ip) (userip db) = false ->
   exists t, userip after = (userip db ++ [mk_userip userId ip t])%list) /\
  (existsb (same_pair userId ip) (userip db) = true ->
   userip after = map (Touched.pair userId ip (now db)) (userip db) /\
   forall r, In r (userip after) -> same_pair userId ip r = true ->
             ui_last_show_up_date r = now db) /\
  existsb (same_pair userId ip) (userip after) = true /\
  filter (fun r => negb (same_pair userId ip r)) (userip after)
    = filter (fun r => negb (same_pair userId ip r)) (userip db) /\
  length (userip (server (fst (CreateOrUpdateUserIp
                                 (fst (CreateOrUpdateUserIp mysql userId ip)) userId ip))))
    = length (userip after) /\
  (user after, userban after, ipban after) = (user db, userban db, ipban db).
Proof.
  intros Hp db after. subst after.
  rewrite !CreateOrUpdateUserIp_run by assumption. cbn [fst snd server].
  subst db. set (db := server mysql).
  unfold upsert_userip. cbn [fst userip user userban ipban now].
  change (fun r => if same_pair userId ip r then mk_userip userId ip (now db) else r)
    with (Touched.pair userId ip (now db)).
  destruct (existsb (same_pair userId ip) (userip db)) eqn:E.
  - rewrite existsb_touched, E. rewrite length_map.
    split; [reflexivity|]. split; [discriminate|]. split.
    { intros _. split; [reflexivity|]. intros r. apply touched_pairs. }
    split; [reflexivity|]. split; [apply filter_other_pairs|].
    split; reflexivity.
  - assert (Es : existsb (same_pair userId ip)
                   (userip db ++ [mk_userip userId ip (now db)]) = true).
    { rewrite existsb_app. cbn [existsb]. unfold same_pair at 2. cbn [ui_user_id ui_ip].
      rewrite Z.eqb_refl, String.eqb_refl. now rewrite orb_true_r. }
    rewrite Es. rewrite length_map.
    split; [reflexivity|]. split; [intros _; eexists; reflexivity|].
    split; [discriminate|]. split; [reflexivity|]. split.
    { rewrite filter_app. cbn [filter]. unfold same_pair at 2. cbn [ui_user_id ui_ip].
      rewrite Z.eqb_refl, String.eqb_refl. cbn. apply app_nil_r. }
    split; reflexivity.
Qed.

Lemma CreateOrUpdateUserIp_upserts_witness :
  (exists t,
     userip (server (fst (CreateOrUpdateUserIp (Sample.connect Sample.db) 1 "1.2.3.4")))
       = [mk_userip 1 "1.2.3.4" t]) /\
  length (userip (server (fst (CreateOrUpdateUserIp
            (fst (CreateOrUpdateUserIp (Sample.connect Sample.db) 1 "1.2.3.4"))
            1 "1.2.3.4")))) = 1%nat.
Proof.
  destruct (CreateOrUpdateUserIp_upserts (Sample.connect Sample.db) 1 "1.2.3.4" eq_refl)
    as (_ & Hnew & _ & _ & _ & Hlen & _).
  destruct (Hnew eq_refl) as [t Ht].
  split.
  - exists t. exact Ht.
  - rewrite Hlen, Ht. reflexivity.
Defined.

(** X12.  For a name no row has yet, and a name and password that can
    stand between quotes as they are, [CreateUser] adds exactly one row at
    the end of [user]: the next generated id, the name and password given,
    [is_male] as 0 or 1, and the column defaults elsewhere, except that an
    empty address is stored as the empty string.  The other tables are
    untouched and the call returns the new row's id cast to [int]. *)
Theorem CreateUser_adds_one_row (mysql : MYSQL) (name password : string)
    (isMale : bool) (creationIp : string) :
  plain name = true -> plain password = true ->
  (forall r, In r (user (server mysql)) -> u_name r <> name) ->
  let db := server mysql in
  let after := server (fst (CreateUser mysql name password isMale creationIp)) in
  exists row,
    user after = (user db ++ [row])%list /\
    u_id row = user_auto_increment db /\
    u_name row = name /\ u_password row = password /\
    u_is_male row = (if isMale then 1 else 0) /\
    u_is_deleted row = u_is_deleted (user_defaults db) /\
    u_creation_ip row =
      (if empty creationIp then Some EmptyString else u_creation_ip (user_defaults db)) /\
    user_auto_increment after = user_auto_increment db + 1 /\
    (userban after, ipban after, userip after) = (userban db, ipban db, userip db) /\
    snd (CreateUser mysql name password isMale creationIp) = Ok (Int.to_int (u_id row)).
Proof.
  intros Hn Hp _ db after. subst after db.
  rewrite CreateUser_run by assumption. cbn [fst snd server].
  eexists. cbn. repeat split.
Qed.

Lemma CreateUser_adds_one_row_witness :
  exists row,
    user (server (fst (CreateUser (Sample.connect Sample.db) "dave" "pw" false
                         EmptyString)))
      = [Sample.alice; Sample.carol; row] /\
    u_id row = 4 /\ u_is_male row = 0 /\ u_creation_ip row = Some EmptyString.
Proof.
  assert (Hfresh : forall r, In r (user (server (Sample.connect Sample.db))) ->
                             u_name r <> "dave")
    by (intros r [<-|[<-|[]]]; discriminate).
  destruct (CreateUser_adds_one_row (Sample.connect Sample.db) "dave" "pw" false
              EmptyString eq_refl eq_refl Hfresh)
    as (row & H1 & H2 & _ & _ & H3 & _ & H4 & _).
  exists row. repeat split; assumption.
Defined.

(** X13.  Create, then look up: after [CreateUser] with a name no row
    has yet, [GetUserId] of that name returns the id [CreateUser] returned.
    The table stays within INT_MAX rows and its ids, the new one included,
    are in the range of [int]. *)
Theorem CreateUser_then_GetUserId (mysql : MYSQL) (name password : string)
    (isMale : bool) (creationIp : string) :
  plain name = true -> plain password = true ->
  (forall r, In r (user (server mysql)) -> u_name r <> name) ->
  Z.of_nat (length (user (server mysql))) < Int.INT_MAX ->
  (forall r, In r (user (server mysql)) -> Int.in_range (u_id r)) ->
  Int.in_range (user_auto_increment (server mysql)) ->
  snd (CreateUser mysql name password isMale creationIp)
    = Ok (user_auto_increment (server mysql)) /\
  snd (GetUserId (fst (CreateUser mysql name password isMale creationIp)) name)
    = Ok (user_auto_increment (server mysql)).
Proof.
  intros Hn Hp Hfresh Hlen Hids Hnext.
  rewrite CreateUser_run by assumption. cbn [fst snd].
  rewrite IntFacts.to_int_small by assumption. split; [reflexivity|].
  set (db := server mysql) in *.
  match goal with |- snd (GetUserId ?m name) = _ => set (mysql' := m) end.
  destruct (GetUserId_run mysql' name Hn) as [_ ->].
  - subst mysql'. cbn [server set_user user]. rewrite length_app. cbn [length]. lia.
  - subst mysql'. cbn [server set_user user]. intros r Hin.
    apply in_app_or in Hin as [Hin|[<-|[]]]; [now apply Hids | exact Hnext].
  - subst mysql'. cbn [server set_user user].
    rewrite find_app_fresh; [reflexivity| |].
    + intros y Hy. apply String.eqb_neq. now apply Hfresh.
    + cbn [u_name]. apply String.eqb_refl.
Qed.

Lemma CreateUser_then_GetUserId_witness :
  snd (GetUserId (fst (CreateUser (Sample.connect Sample.db) "dave" "pw" true "1.2.3.4"))
         "dave") = Ok 4.
Proof.
  apply (CreateUser_then_GetUserId (Sample.connect Sample.db) "dave" "pw" true "1.2.3.4"
           eq_refl eq_refl).
  - intros r [<-|[<-|[]]]; discriminate.
  - unfold Int.INT_MAX. cbn. lia.
  - intros r [<-|[<-|[]]]; unfold Int.in_range, Int.INT_MIN, Int.INT_MAX; cbn; lia.
  - unfold Int.in_range, Int.INT_MIN, Int.INT_MAX. cbn. lia.
Defined.

(** X14.  Ban, then ask: after [CreateIpBan] for an address, with a date
    inside the TIMESTAMP range or with -1, [GetIpBanInfo] of that address
    gives -1 if the new ban is permanent, the new date if the address had no
    ban row, and otherwise what it gave before - a later date does not
    replace the date of an earlier row; the answer for any other address is
    unchanged. *)
Theorem CreateIpBan_then_GetIpBanInfo (mysql : MYSQL) (ip : string) (e : Z) :
  plain ip = true ->
  Forall timestamp (map b_expiration_date (ipban (server mysql))) ->
  e = -1 \/ 0 <= e <= Int.INT_MAX ->
  let mysql' := fst (CreateIpBan mysql ip e) in
  exists before,
    snd (GetIpBanInfo mysql ip) = Ok (mk_IpBanInfo before) /\
    snd (GetIpBanInfo mysql' ip) =
      Ok (mk_IpBanInfo
            (if e =? -1 then -1
             else match BanRows.of_ip (server mysql) ip with
                  | [] => e
                  | _ :: _ => before
                  end)) /\
    (forall other, plain other = true -> other <> ip ->
       snd (GetIpBanInfo mysql' other) = snd (GetIpBanInfo mysql other)).
Proof.
  intros Hp Hd He mysql'.
  exists (BanRows.first_listed (BanRows.of_ip (server mysql) ip)).
  assert (Hx : timestamp (if e =? -1 then None else FROM_UNIXTIME e)).
  { destruct (Z.eqb_spec e (-1)); [exact I|].
    unfold FROM_UNIXTIME. unfold Int.INT_MAX in He.
    destruct (Z.leb_spec 0 e); destruct (Z.leb_spec e 2147483647); cbn;
      unfold Int.INT_MAX; try lia; exact I. }
  assert (Es : ipban (server mysql') =
               (ipban (server mysql) ++
                [mk_ban (ipban_auto_increment (server mysql)) ip
                   (if e =? -1 then None else FROM_UNIXTIME e)])%list).
  { subst mysql'. now rewrite CreateIpBan_run by assumption. }
  assert (Hd' : Forall timestamp (map b_expiration_date (ipban (server mysql')))).
  { rewrite Es, map_app. apply Forall_app. split; [assumption|]. now repeat constructor. }
  rewrite !GetIpBanInfo_run by assumption. cbn [snd].
  split; [reflexivity|]. split.
  - do 2 f_equal. rewrite (of_ip_snoc _ _ ip _ _ _ Es), String.eqb_refl.
    rewrite first_listed_snoc.
    destruct (Z.eqb_spec e (-1)) as [->|Hne]; [reflexivity|].
    unfold FROM_UNIXTIME. unfold Int.INT_MAX in He.
    destruct (Z.leb_spec 0 e); destruct (Z.leb_spec e 2147483647); try lia.
    reflexivity.
  - intros other Ho Hne. rewrite !GetIpBanInfo_run by assumption. cbn [snd].
    do 2 f_equal. rewrite (of_ip_snoc _ _ other _ _ _ Es).
    destruct (String.eqb_spec ip other); [congruence|]. now rewrite app_nil_r.
Qed.

Lemma CreateIpBan_then_GetIpBanInfo_witness :
  snd (GetIpBanInfo (fst (CreateIpBan (Sample.connect Sample.db) "10.0.0.2" 7))
         "10.0.0.2") = Ok (mk_IpBanInfo 5) /\
  snd (GetIpBanInfo (fst (CreateIpBan (Sample.connect Sample.db) "10.0.0.1" 7))
         "10.0.0.1") = Ok (mk_IpBanInfo 7) /\
  snd (GetIpBanInfo (fst (CreateIpBan (Sample.connect Sample.db) "10.0.0.2" (-1)))
         "10.0.0.2") = Ok (mk_IpBanInfo (-1)).
Proof.
  assert (Hd : Forall timestamp
                 (map b_expiration_date (ipban (server (Sample.connect Sample.db)))))
    by (repeat constructor; unfold Int.INT_MAX; lia).
  split; [|split].
  - destruct (CreateIpBan_then_GetIpBanInfo (Sample.connect Sample.db) "10.0.0.2" 7
                eq_refl Hd ltac:(right; unfold Int.INT_MAX; lia))
      as (before & Hb & Ha & _).
    rewrite Ha. injection Hb as <-. reflexivity.
  - destruct (CreateIpBan_then_GetIpBanInfo (Sample.connect Sample.db) "10.0.0.1" 7
                eq_refl Hd ltac:(right; unfold Int.INT_MAX; lia))
      as (before & Hb & Ha & _).
    rewrite Ha. reflexivity.
  - destruct (CreateIpBan_then_GetIpBanInfo (Sample.connect Sample.db) "10.0.0.2" (-1)
                eq_refl Hd ltac:(left; reflexivity))
      as (before & Hb & Ha & _).
    rewrite Ha. reflexivity.
Defined.

(** X15.  The four operations that only read leave the database as it
    was, also when they fail: [GetUserId], [GetIpBanInfo], [GetUserLoginInfo]
    and [GetUserPostLoginInfo]. *)
Theorem reads_leave_database (mysql : MYSQL) (userId : Z) (userName ip : string) :
  plain userName = true -> plain ip = true ->
  server (fst (GetUserId mysql userName)) = server mysql /\
  server (fst (GetIpBanInfo mysql ip)) = server mysql /\
  server (fst (GetUserLoginInfo mysql userId)) = server mysql /\
  server (fst (GetUserPostLoginInfo mysql userId)) = server mysql.
Proof.
  intros Hn Hi. repeat split.
  - unfold GetUserId.
    assert (H : no_nul (GetUserId_query userName) = true)
      by (unfold GetUserId_query; no_nul_text).
    rewrite (ExecuteQuery_run mysql _ _ H (read_GetUserId_query userName Hn)).
    now rewrite select_id_response.
  - unfold GetIpBanInfo.
    assert (H : no_nul (GetIpBanInfo_query ip) = true)
      by (unfold GetIpBanInfo_query; no_nul_text).
    now rewrite (ExecuteQuery_run mysql _ _ H (read_GetIpBanInfo_query ip Hi)).
  - unfold GetUserLoginInfo, GetUserLoginInfo_block1.
    assert (H : no_nul (GetUserLoginInfo_query1 userId) = true)
      by (unfold GetUserLoginInfo_query1; no_nul_text).
    rewrite (ExecuteQuery_run mysql _ _ H (read_GetUserLoginInfo_query1 userId)).
    destruct (login_query1_response (server mysql) userId) as [rows ->].
    cbn [fst snd result_of obind]. now rewrite column_user_not_found.
  - now rewrite GetUserPostLoginInfo_run.
Qed.


Lemma reads_leave_database_witness :
  server (fst (GetUserId (Sample.connect Sample.db) "alice")) = Sample.db /\
  server (fst (GetIpBanInfo (Sample.connect Sample.db) "10.0.0.2")) = Sample.db.
Proof.
  destruct (reads_leave_database (Sample.connect Sample.db) 1 "alice" "10.0.0.2"
              eq_refl eq_refl) as (H1 & H2 & _).
  split; assumption.
Defined.
